(** * compare-aspaths: a shallow embedding of [compare-aspaths.py]

    The script compares the AS-paths RIPE RIS saw towards a BGP prefix at
    two points in time.  This development embeds its functions
    ([ris_get_dump_times], [ris_get_last_dump_datetime],
    [ris_compare_aspaths], [lists_equal], [validate_target], the
    [RIPEstat] client and the main block) and proves the properties its
    specification states about them.

    Conventions of the embedding:
    - a Python exception is a value of [exn]; a computation that may raise
      has type [result A];
    - a naive [datetime] is the number of microseconds since
      0001-01-01T00:00:00 and a [date] the number of days since
      0001-01-01; [datetime] ends with the year 9999, and arithmetic that
      leaves its range raises [OverflowError];
    - [dateutil.rrule], [bisect.bisect] and the parts of [ipaddress] the
      script calls are written out after their library sources. *)

From Stdlib Require Import ZArith List Lia Bool Arith String Ascii.
From Stdlib Require Import DecimalString HexadecimalString.
From Equations Require Import Equations.
Import ListNotations.

Set Implicit Arguments.
Open Scope Z_scope.

(** ** Python results *)

Module Py.

(** The exception classes that occur in the script and in the library
    code it calls.  [AddressValueError] and [NetmaskValueError] are the
    two subclasses of [ValueError] declared by [ipaddress];
    [OverflowError] is what [datetime], [timedelta] and the conversion of
    an [int] to a [float] raise on a value out of range. *)
Inductive exn : Type :=
| TypeError
| IndexError
| ValueError
| AddressValueError
| NetmaskValueError
| OverflowError.

(** [isinstance(e, ValueError)], as tested by [except ValueError]. *)
Definition is_ValueError (e : exn) : bool :=
  match e with
  | ValueError | AddressValueError | NetmaskValueError => true
  | TypeError | IndexError | OverflowError => false
  end.

Inductive result (A : Type) : Type :=
| Ok (a : A)
| Raise (e : exn).

Arguments Ok {A} a.
Arguments Raise {A} e.

Definition bind {A B : Type} (c : result A) (k : A -> result B) : result B :=
  match c with
  | Ok a => k a
  | Raise e => Raise e
  end.

(** [l[i]] for an index that is not negative. *)
Definition getitem {A : Type} (l : list A) (i : nat) : result A :=
  match nth_error l i with
  | Some a => Ok a
  | None => Raise IndexError
  end.

End Py.

Import Py.

Notation "x <- c ;; k" := (bind c (fun x => k))
  (at level 61, c at next level, right associativity).
Notation "' pat <- c ;; k" := (bind c (fun x => match x with pat => k end))
  (at level 61, pat pattern, c at next level, right associativity).

(** ** Python strings

    A [str] is a [string]; the operations below are the ones the script
    and [ipaddress] apply to the target. *)

Module PyStr.

(** [c in s] for a one-character [c]. *)
Fixpoint contains (c : ascii) (s : string) : bool :=
  match s with
  | EmptyString => false
  | String a s' => Ascii.eqb a c || contains c s'
  end.

(** [s.split(sep)] for a one-character separator. *)
Fixpoint split (sep : ascii) (s : string) : list string :=
  match s with
  | EmptyString => [EmptyString]
  | String a s' =>
      if Ascii.eqb a sep then EmptyString :: split sep s'
      else match split sep s' with
           | [] => [String a EmptyString]
           | p :: ps => String a p :: ps
           end
  end.

(** [s.partition(sep)]: the text before the first separator, whether
    there is one, and the text after it. *)
Fixpoint partition (sep : ascii) (s : string) : string * bool * string :=
  match s with
  | EmptyString => (EmptyString, false, EmptyString)
  | String a s' =>
      if Ascii.eqb a sep then (EmptyString, true, s')
      else let '(h, found, t) := partition sep s' in (String a h, found, t)
  end.

Definition is_empty (s : string) : bool :=
  match s with
  | EmptyString => true
  | String _ _ => false
  end.

Definition code (c : ascii) : Z := Z.of_N (N_of_ascii c).

Definition is_digit (c : ascii) : bool := (48 <=? code c) && (code c <=? 57).

(** [s.isascii() and s.isdigit()]; [isdigit] is false on the empty
    string. *)
Definition isascii_isdigit (s : string) : bool :=
  negb (is_empty s) && forallb is_digit (list_ascii_of_string s).

(** [int(s, 10)] for a string of ASCII digits. *)
Definition int10 (s : string) : Z :=
  fold_left (fun acc c => 10 * acc + (code c - 48)) (list_ascii_of_string s) 0.

(** The value of a character of ['0123456789ABCDEFabcdef']. *)
Definition hex_value (c : ascii) : option Z :=
  let n := code c in
  if (48 <=? n) && (n <=? 57) then Some (n - 48)
  else if (65 <=? n) && (n <=? 70) then Some (n - 55)
  else if (97 <=? n) && (n <=? 102) then Some (n - 87)
  else None.

Definition is_hex_digit (c : ascii) : bool :=
  match hex_value c with
  | Some _ => true
  | None => false
  end.

(** [int(s, 16)] for a string of hexadecimal digits; the empty string
    is not a literal. *)
Definition int16 (s : string) : result Z :=
  if is_empty s then Raise ValueError
  else Ok (fold_left
             (fun acc c => 16 * acc + match hex_value c with Some v => v | None => 0 end)
             (list_ascii_of_string s) 0).

(** ['%x' % n] for [n >= 0]. *)
Definition format_x (n : Z) : string :=
  HexadecimalString.NilZero.string_of_uint (N.to_hex_uint (Z.to_N n)).

End PyStr.

(** ** The [ipaddress] module (CPython 3.11), as far as [IPv4Network(s)]
    and [IPv6Network(s)] with the default [strict=True] reach into it.
    A network that is accepted is returned as its address and prefix
    length.  The netmask cache of [_make_netmask] only stores results and
    is left out. *)

Module Ipaddress.

Import PyStr.

Definition IPV4LENGTH : Z := 32.
Definition IPV6LENGTH : Z := 128.

(** [try: c except ValueError: raise e'] *)
Definition reraise_ValueError {A : Type} (e' : exn) (c : result A) : result A :=
  match c with
  | Ok a => Ok a
  | Raise e => if is_ValueError e then Raise e' else Raise e
  end.

(** What [_split_addr_prefix] hands to [_make_netmask]: the text after
    the slash, or the integer [_max_prefixlen] when there is no slash. *)
Inductive mask_arg : Type :=
| MaskStr (s : string)
| MaskInt (n : Z).

Definition _split_optional_netmask (address : string) : result (list string) :=
  let addr := split "/" address in
  if (2 <? List.length addr)%nat then Raise AddressValueError else Ok addr.

Definition _split_addr_prefix (max_prefixlen : Z) (address : string)
  : result (string * mask_arg) :=
  parts <- _split_optional_netmask address ;;
  match parts with
  | [a; m] => Ok (a, MaskStr m)
  | a :: _ => Ok (a, MaskInt max_prefixlen)
  | [] => Raise IndexError
  end.

Definition bit_length (n : Z) : Z := if n =? 0 then 0 else Z.log2 n + 1.

Definition _count_righthand_zero_bits (number bits : Z) : Z :=
  if number =? 0 then bits
  else Z.min bits (bit_length (Z.land (Z.lnot number) (number - 1))).

Section Family.

Variable max_prefixlen : Z.

Definition ALL_ONES : Z := 2 ^ max_prefixlen - 1.

Definition _ip_int_from_prefix (prefixlen : Z) : Z :=
  Z.lxor ALL_ONES (Z.shiftr ALL_ONES prefixlen).

Definition _prefix_from_ip_int (ip_int : Z) : result Z :=
  let trailing_zeroes := _count_righthand_zero_bits ip_int max_prefixlen in
  let prefixlen := max_prefixlen - trailing_zeroes in
  let leading_ones := Z.shiftr ip_int trailing_zeroes in
  let all_ones := Z.shiftl 1 prefixlen - 1 in
  if negb (leading_ones =? all_ones) then Raise ValueError else Ok prefixlen.

Definition _prefix_from_prefix_string (prefixlen_str : string) : result Z :=
  if negb (isascii_isdigit prefixlen_str) then Raise NetmaskValueError
  else
    let prefixlen := int10 prefixlen_str in
    if negb ((0 <=? prefixlen) && (prefixlen <=? max_prefixlen))
    then Raise NetmaskValueError
    else Ok prefixlen.

(** The integer branch of [_make_netmask]. *)
Definition _prefix_from_int (prefixlen : Z) : result Z :=
  if negb ((0 <=? prefixlen) && (prefixlen <=? max_prefixlen))
  then Raise NetmaskValueError
  else Ok prefixlen.

End Family.

(** *** IPv4 *)

Definition _parse_octet (octet_str : string) : result Z :=
  if is_empty octet_str then Raise ValueError
  else if negb (isascii_isdigit octet_str) then Raise ValueError
  else if (3 <? String.length octet_str)%nat then Raise ValueError
  else if negb (String.eqb octet_str "0")
          && match octet_str with
             | String c _ => Ascii.eqb c "0"
             | EmptyString => false
             end
  then Raise ValueError
  else
    let octet_int := int10 octet_str in
    if 255 <? octet_int then Raise ValueError else Ok octet_int.

(** [int.from_bytes(map(_parse_octet, octets), 'big')] *)
Fixpoint from_octets (octets : list string) (acc : Z) : result Z :=
  match octets with
  | [] => Ok acc
  | o :: rest => b <- _parse_octet o ;; from_octets rest (256 * acc + b)
  end.

Definition v4_ip_int_from_string (ip_str : string) : result Z :=
  if is_empty ip_str then Raise AddressValueError
  else
    let octets := split "." ip_str in
    if negb (List.length octets =? 4)%nat then Raise AddressValueError
    else reraise_ValueError AddressValueError (from_octets octets 0).

(** [IPv4Address(s)._ip] *)
Definition IPv4Address (address : string) : result Z :=
  if contains "/" address then Raise AddressValueError
  else v4_ip_int_from_string address.

Definition v4_prefix_from_ip_string (ip_str : string) : result Z :=
  match v4_ip_int_from_string ip_str with
  | Raise AddressValueError => Raise NetmaskValueError
  | Raise e => Raise e
  | Ok ip_int =>
      match _prefix_from_ip_int IPV4LENGTH ip_int with
      | Ok p => Ok p
      | Raise e =>
          if is_ValueError e
          then reraise_ValueError NetmaskValueError
                 (_prefix_from_ip_int IPV4LENGTH (Z.lxor ip_int (ALL_ONES IPV4LENGTH)))
          else Raise e
      end
  end.

(** [_BaseV4._make_netmask]: the netmask and the prefix length. *)
Definition v4_make_netmask (arg : mask_arg) : result (Z * Z) :=
  prefixlen <-
    match arg with
    | MaskInt n => _prefix_from_int IPV4LENGTH n
    | MaskStr s =>
        match _prefix_from_prefix_string IPV4LENGTH s with
        | Raise NetmaskValueError => v4_prefix_from_ip_string s
        | r => r
        end
    end ;;
  Ok (_ip_int_from_prefix IPV4LENGTH prefixlen, prefixlen).

Definition IPv4Network (address : string) : result (Z * Z) :=
  '(addr, mask) <- _split_addr_prefix IPV4LENGTH address ;;
  network_address <- IPv4Address addr ;;
  '(netmask, prefixlen) <- v4_make_netmask mask ;;
  let packed := network_address in
  if negb (Z.land packed netmask =? packed) then Raise ValueError
  else Ok (network_address, prefixlen).

(** *** IPv6 *)

Definition HEXTET_COUNT : nat := 8.

Definition _parse_hextet (hextet_str : string) : result Z :=
  if negb (forallb is_hex_digit (list_ascii_of_string hextet_str))
  then Raise ValueError
  else if (4 <? String.length hextet_str)%nat then Raise ValueError
  else int16 hextet_str.

(** The loop that looks for a ['::'] between the end points:
<<
    for i in range(1, len(parts) - 1):
        if not parts[i]:
            if skip_index is not None: raise AddressValueError
            skip_index = i
>> *)
Fixpoint find_skip (parts : list string) (range : list nat) (skip_index : option nat)
  : result (option nat) :=
  match range with
  | [] => Ok skip_index
  | i :: rest =>
      if is_empty (nth i parts EmptyString)
      then match skip_index with
           | Some _ => Raise AddressValueError
           | None => find_skip parts rest (Some i)
           end
      else find_skip parts rest skip_index
  end.

(** [for p in hextets: ip_int <<= 16; ip_int |= _parse_hextet(p)] *)
Fixpoint parse_hextets (hextets : list string) (ip_int : Z) : result Z :=
  match hextets with
  | [] => Ok ip_int
  | p :: rest =>
      h <- _parse_hextet p ;;
      parse_hextets rest (Z.lor (Z.shiftl ip_int 16) h)
  end.

Definition v6_ip_int_from_string (ip_str : string) : result Z :=
  if is_empty ip_str then Raise AddressValueError
  else
    let parts := split ":" ip_str in
    if (List.length parts <? 3)%nat then Raise AddressValueError
    else
      parts <-
        (if contains "." (last parts EmptyString)
         then
           ipv4_int <- IPv4Address (last parts EmptyString) ;;
           Ok (removelast parts
                 ++ [format_x (Z.land (Z.shiftr ipv4_int 16) 65535);
                     format_x (Z.land ipv4_int 65535)])
         else Ok parts) ;;
      let len := List.length parts in
      if (HEXTET_COUNT + 1 <? len)%nat then Raise AddressValueError
      else
        skip_index <- find_skip parts (seq 1 (len - 2)) None ;;
        '(parts_hi, parts_lo, parts_skipped) <-
          match skip_index with
          | Some k =>
              parts_hi <-
                (if is_empty (hd EmptyString parts)
                 then if negb (k - 1 =? 0)%nat then Raise AddressValueError
                      else Ok (k - 1)%nat
                 else Ok k) ;;
              parts_lo <-
                (if is_empty (last parts EmptyString)
                 then if negb (len - k - 1 - 1 =? 0)%nat then Raise AddressValueError
                      else Ok (len - k - 1 - 1)%nat
                 else Ok (len - k - 1)%nat) ;;
              let parts_skipped := Z.of_nat HEXTET_COUNT - Z.of_nat (parts_hi + parts_lo) in
              if parts_skipped <? 1 then Raise AddressValueError
              else Ok (parts_hi, parts_lo, parts_skipped)
          | None =>
              if negb (len =? HEXTET_COUNT)%nat then Raise AddressValueError
              else if is_empty (hd EmptyString parts) then Raise AddressValueError
              else if is_empty (last parts EmptyString) then Raise AddressValueError
              else Ok (len, O, 0)
          end ;;
        reraise_ValueError AddressValueError
          (ip_int <- parse_hextets (firstn parts_hi parts) 0 ;;
           parse_hextets (skipn (len - parts_lo) parts)
             (Z.shiftl ip_int (16 * parts_skipped))).

Definition _split_scope_id (ip_str : string) : result (string * option string) :=
  let '(addr, sep, scope_id) := partition "%" ip_str in
  if negb sep then Ok (addr, None)
  else if is_empty scope_id || contains "%" scope_id then Raise AddressValueError
  else Ok (addr, Some scope_id).

(** [IPv6Address(s)._ip] *)
Definition IPv6Address (address : string) : result Z :=
  if contains "/" address then Raise AddressValueError
  else
    '(addr_str, _) <- _split_scope_id address ;;
    v6_ip_int_from_string addr_str.

(** [_BaseV6._make_netmask]: the netmask and the prefix length. *)
Definition v6_make_netmask (arg : mask_arg) : result (Z * Z) :=
  prefixlen <-
    match arg with
    | MaskInt n => _prefix_from_int IPV6LENGTH n
    | MaskStr s => _prefix_from_prefix_string IPV6LENGTH s
    end ;;
  Ok (_ip_int_from_prefix IPV6LENGTH prefixlen, prefixlen).

Definition IPv6Network (address : string) : result (Z * Z) :=
  '(addr, mask) <- _split_addr_prefix IPV6LENGTH address ;;
  network_address <- IPv6Address addr ;;
  '(netmask, prefixlen) <- v6_make_netmask mask ;;
  let packed := network_address in
  if negb (Z.land packed netmask =? packed) then Raise ValueError
  else Ok (network_address, prefixlen).

End Ipaddress.

(** ** Time: [datetime], [timedelta], [rrule], [bisect] *)

Module Time.

Abbreviation datetime := Z (only parsing).
Abbreviation date := Z (only parsing).

Definition US_PER_HOUR : Z := 3600000000.
Definition US_PER_DAY : Z := 24 * US_PER_HOUR.

(** [date.max.toordinal()]: the number of days of the years 1 to 9999. *)
Definition MAXORDINAL : Z := 3652059.

(** The first moment after [datetime.max]. *)
Definition DATETIME_END : Z := MAXORDINAL * US_PER_DAY.

(** The moments [datetime] can hold. *)
Definition is_datetime (dt : Z) : bool := (0 <=? dt) && (dt <? DATETIME_END).

(** A number of hours as a number of microseconds. *)
Definition hours (h : Z) : Z := h * US_PER_HOUR.

(** [timedelta(hours=h)] as a number of microseconds; the constructor
    refuses more than 999999999 days in either direction. *)
Definition timedelta_hours (h : Z) : result Z :=
  let days := hours h / US_PER_DAY in
  if 999999999 <? Z.abs days then Raise OverflowError else Ok (hours h).

(** [dt - delta] for a [datetime] and a [timedelta]: the difference, and
    [OverflowError] when it is not a moment [datetime] can hold.  The
    minuend is a [datetime], so it is one of these moments itself; a
    number that is none is passed through. *)
Definition datetime_sub (dt : datetime) (delta : Z) : result datetime :=
  if is_datetime dt && negb (is_datetime (dt - delta)) then Raise OverflowError
  else Ok (dt - delta).

(** [datetime.fromordinal(d.toordinal())]: midnight of day [d]; this is
    what [rrule] does with a [dtstart] that is a [date]. *)
Definition datetime_of_date (d : date) : datetime := d * US_PER_DAY.

(** [dt.date()]. *)
Definition date_of (dt : datetime) : date := dt / US_PER_DAY.

(** The generator of an [rrule] whose frequency is [HOURLY] and that has
    no BY-rules: it yields [cur], advances it by the interval and stops
    once [count] occurrences are out, or when the next one would lie in a
    year after [MAXYEAR]. *)
Fixpoint rrule_iter (count : nat) (step : Z) (cur : datetime) : list datetime :=
  match count with
  | O => []
  | S c => if cur <? DATETIME_END then cur :: rrule_iter c step (cur + step) else []
  end.

(** [list(rrule(HOURLY, interval=interval, dtstart=dtstart, count=count))]
    for a [dtstart] that is a [date].  A count that is not positive
    yields nothing. *)
Definition rrule_hourly (interval : Z) (dtstart : date) (count : Z) : list datetime :=
  rrule_iter (Z.to_nat count) (hours interval) (datetime_of_date dtstart).

(** The ints [float(n)] converts: those that do not round beyond the
    largest double. *)
Definition FLOAT_LIMIT : Z := 2 ^ 1024 - 2 ^ 970.

Definition fits_float (n : Z) : bool := Z.abs n <? FLOAT_LIMIT.

(** The loop of [bisect.bisect_right(a, x, lo, hi)]:
<<
    while lo < hi:
        mid = (lo + hi) // 2
        if x < a[mid]: hi = mid
        else: lo = mid + 1
    return lo
>> *)
Equations? bisect_loop (a : list Z) (x : Z) (lo hi : nat) : result nat
  by wf (hi - lo)%nat lt :=
  bisect_loop a x lo hi with lt_dec lo hi => {
    | right _ := Ok lo
    | left _ with nth_error a ((lo + hi) / 2)%nat => {
        | None := Raise IndexError
        | Some am with Z_lt_dec x am => {
            | left _ := bisect_loop a x lo ((lo + hi) / 2)%nat
            | right _ := bisect_loop a x (S ((lo + hi) / 2)%nat) hi } } }.
Proof.
  all: change (fst (Nat.divmod (lo + hi) 1 0 1)) with ((lo + hi) / 2)%nat.
  all: assert ((lo + hi) / 2 < hi)%nat
    by (apply Nat.Div0.div_lt_upper_bound; lia).
  all: assert (lo <= (lo + hi) / 2)%nat
    by (apply Nat.div_le_lower_bound; lia).
  all: lia.
Qed.

(** [bisect(a, x)], which is [bisect_right(a, x)] with [lo = 0] and
    [hi = len(a)]. *)
Definition bisect (a : list Z) (x : Z) : result nat :=
  bisect_loop a x 0 (List.length a).

End Time.

Import Time.

(** ** Python dictionaries

    A [dict] with [str] keys keeps its keys in insertion order; assigning
    to a key that is present replaces the value and keeps the position. *)

Module Dict.

Section WithValues.

Variable V : Type.

Definition dict : Type := list (string * V).

Definition empty : dict := [].

(** [d[k] = v] *)
Fixpoint set (k : string) (v : V) (d : dict) : dict :=
  match d with
  | [] => [(k, v)]
  | (k', v') :: rest =>
      if String.eqb k' k then (k', v) :: rest else (k', v') :: set k v rest
  end.

(** [d[k]] when [k] is a key, and [None] when it is not. *)
Fixpoint get (k : string) (d : dict) : option V :=
  match d with
  | [] => None
  | (k', v') :: rest => if String.eqb k' k then Some v' else get k rest
  end.

(** [d.items()] *)
Definition items (d : dict) : list (string * V) := d.

End WithValues.

Arguments empty {V}.

End Dict.

(** ** Text output: [str], [join], [format], [strftime] *)

Module Fmt.

(** [str(n)] for an [int]. *)
Definition str_int (n : Z) : string :=
  DecimalString.NilZero.string_of_int (Z.to_int n).

(** [sep.join(l)] *)
Definition join (sep : string) (l : list string) : string := String.concat sep l.

Fixpoint repeat_char (c : ascii) (n : nat) : string :=
  match n with
  | O => EmptyString
  | S k => String c (repeat_char c k)
  end.

(** The field [{:c>w}]: [s] moved to the right of a field of [w]
    characters filled with [c]; a longer [s] is left as it is. *)
Definition rjust (c : ascii) (w : nat) (s : string) : string :=
  (repeat_char c (w - String.length s) ++ s)%string.

(** The civil date of a day number (day 0 is 0001-01-01) in the
    proleptic Gregorian calendar. *)
Definition civil_of_days (days : Z) : Z * Z * Z :=
  let z := days + 306 in
  let era := z / 146097 in
  let doe := z mod 146097 in
  let yoe := (doe - doe / 1460 + doe / 36524 - doe / 146096) / 365 in
  let doy := doe - (365 * yoe + yoe / 4 - yoe / 100) in
  let mp := (5 * doy + 2) / 153 in
  let d := doy - (153 * mp + 2) / 5 + 1 in
  let m := if mp <? 10 then mp + 3 else mp - 9 in
  let y := yoe + era * 400 + (if m <=? 2 then 1 else 0) in
  (y, m, d).

(** [dt.strftime("%Y-%m-%dT%H:%M")] with the C library of Linux: [%m],
    [%d], [%H] and [%M] are two digits, [%Y] is the year as it is, without
    padding. *)
Definition strftime_Ymd_HM (dt : datetime) : string :=
  let '(y, m, d) := civil_of_days (date_of dt) in
  let us := dt mod US_PER_DAY in
  let hh := us / US_PER_HOUR in
  let mm := (us mod US_PER_HOUR) / 60000000 in
  (str_int y ++ "-" ++ rjust "0" 2 (str_int m) ++ "-"
     ++ rjust "0" 2 (str_int d) ++ "T" ++ rjust "0" 2 (str_int hh) ++ ":"
     ++ rjust "0" 2 (str_int mm))%string.

End Fmt.

(** ** The script *)

Definition RIPE_RIS_INTERVAL : Z := 8.
Definition RIPE_RIS_DEFAULT_N_DUMPS_BACK : Z := 3.
Definition HOURS_PER_DAY : Z := 24.

(** [ris_get_dump_times()], with the two things it reads from its
    environment as arguments: [n] is [args[0].n] and [today] is what
    [date.today()] returns.  The quotient is the float [3.0] in Python, so
    the product converts [n] to a float, which raises for an [n] that is
    too large.  The count [3.0 * n] is a float; below 2^53 it is the
    integer [3 * n], and from there on it is more than the occurrences
    there are before the year 10000, so [rrule] stops as it does for
    [3 * n]. *)
Definition ris_get_dump_times (n : Z) (today : date) : result (list datetime) :=
  let n_dumps_per_day := HOURS_PER_DAY / RIPE_RIS_INTERVAL in
  if negb (fits_float n) then Raise OverflowError
  else Ok (rrule_hourly RIPE_RIS_INTERVAL today (n_dumps_per_day * n)).

(** [ris_get_last_dump_datetime()]; [now] is what [datetime.now()]
    returns. *)
Definition ris_get_last_dump_datetime (n : Z) (today : date) (now : datetime)
  : result datetime :=
  times <- ris_get_dump_times n today ;;
  delta <- timedelta_hours (RIPE_RIS_INTERVAL * n) ;;
  dt <- datetime_sub now delta ;;
  i <- bisect times dt ;;
  getitem times i.

Definition RIPE_STAT_BASE_URL : string := "https://stat.ripe.net/data/".

(** *** The data the service returns

    One element of [data.bgp_state]: the collector peer that saw the route
    and the AS-path it saw, a sequence of AS numbers. *)
Record bgp_state : Type := {
  source_id : string;
  path : list Z
}.

(** What [res.json()] gives for a [bgp-state] answer; only
    [data.bgp_state] is read. *)
Record bgp_reply : Type := {
  data_bgp_state : list bgp_state
}.

(** A value that is either such a document or Python's [None]. *)
Definition snapshot : Type := option bgp_reply.

(** An HTTP response as [APIClient.get] hands it over: the status code,
    and what [res.json()] evaluates to (it raises when the body is not
    JSON). *)
Record response : Type := {
  status_code : Z;
  json : result snapshot
}.

(** *** class RIPEstat(APIClient) *)

Record RIPEstat : Type := {
  BASEURL : string;
  sourceapp : string
}.

Definition VALID_RESP_CODE : list Z := [200].

(** [os.path.basename(__file__)] *)
Definition script_basename : string := "compare-aspaths.py".

(** [RIPEstat(baseurl=...)] *)
Definition RIPEstat_init (baseurl : option string) : RIPEstat :=
  {| BASEURL := match baseurl with
                | Some u => if PyStr.is_empty u then EmptyString else u
                | None => EmptyString
                end;
     sourceapp := script_basename |}.

(** [for k, v in params.items(): params_str += "&{}={}".format(k, v)] *)
Fixpoint add_params (params : list (string * string)) (params_str : string) : string :=
  match params with
  | [] => params_str
  | (k, v) :: rest => add_params rest (params_str ++ "&" ++ k ++ "=" ++ v)%string
  end.

Definition RIPEstat__querystring (self : RIPEstat) (method : string)
    (params : option (list (string * string))) : string :=
  let params_str := ("sourceapp=" ++ sourceapp self)%string in
  if negb (String.eqb method "get") then params_str
  else match params with
       | Some (kv :: rest) => add_params (kv :: rest) params_str
       | Some [] | None => params_str
       end.

Definition RIPEstat__url (self : RIPEstat) (datacall qs : string) : string :=
  (BASEURL self ++ datacall ++ "/data.json?" ++ qs)%string.

Definition RIPEstat__response (res : response) : result snapshot :=
  if existsb (Z.eqb (status_code res)) VALID_RESP_CODE
  then json res
  else Ok None.

Section Client.

(** [APIClient.get]: the transport, which answers a URL with a
    response. *)
Variable http_get : string -> response.

Definition RIPEstat_get (self : RIPEstat) (datacall : string)
    (params : option (list (string * string))) : result snapshot :=
  let url := RIPEstat__url self datacall (RIPEstat__querystring self "get" params) in
  let res := http_get url in
  RIPEstat__response res.

Definition ris_get_bgp_state (resource timestamp : string) : result snapshot :=
  let r := RIPEstat_init (Some RIPE_STAT_BASE_URL) in
  let kwargs := [("resource", resource); ("timestamp", timestamp)]%string in
  RIPEstat_get r "bgp-state" (Some kwargs).

(** The URL [ris_get_bgp_state] requests. *)
Definition bgp_state_url (resource timestamp : string) : string :=
  let r := RIPEstat_init (Some RIPE_STAT_BASE_URL) in
  RIPEstat__url r "bgp-state"
    (RIPEstat__querystring r "get"
       (Some [("resource", resource); ("timestamp", timestamp)]%string)).

End Client.

Definition ris_format_timestamp (dt : datetime) : string := Fmt.strftime_Ymd_HM dt.

(** *** Comparison *)

(** [lists_equal(a, b)].  After the length test both arrays have the same
    shape, [==] compares them position by position and [numpy.all] is the
    conjunction (true for two empty lists).  AS numbers are 32-bit, so
    [asarray] builds integer arrays that hold them exactly. *)
Definition lists_equal (a b : list Z) : bool :=
  if negb (List.length a =? List.length b)%nat then false
  else forallb (fun p => fst p =? snd p) (combine a b).

(** [x['data']['bgp_state']]: [None] is not subscriptable. *)
Definition get_bgp_state (x : snapshot) : result (list bgp_state) :=
  match x with
  | None => Raise TypeError
  | Some reply => Ok (data_bgp_state reply)
  end.

(** [for bgp_state in l: paths[bgp_state['source_id']] = bgp_state['path']] *)
Fixpoint collect_paths (l : list bgp_state) (paths : Dict.dict (list Z))
  : Dict.dict (list Z) :=
  match l with
  | [] => paths
  | st :: rest => collect_paths rest (Dict.set (source_id st) (path st) paths)
  end.

(** The line the script prints for a changed path. *)
Definition format_change (old_path new_path : list Z) : string :=
  (Fmt.rjust " " 35 (Fmt.join " " (map Fmt.str_int old_path)) ++ " --> "
     ++ Fmt.rjust " " 35 (Fmt.join " " (map Fmt.str_int new_path)))%string.

(** The reporting loop over [then_paths.items()]: an item whose key is
    not in [now_paths] is skipped ([continue]), the others are compared
    with [now_paths[source_id]].  Each printed line is returned with the
    [source_id] of the iteration that printed it. *)
Fixpoint report_changes (items : list (string * list Z)) (now_paths : Dict.dict (list Z))
  : list (string * string) :=
  match items with
  | [] => []
  | (sid, p) :: rest =>
      match Dict.get sid now_paths with
      | None => report_changes rest now_paths
      | Some now_path =>
          if negb (lists_equal p now_path)
          then (sid, format_change p now_path) :: report_changes rest now_paths
          else report_changes rest now_paths
      end
  end.

(** [ris_compare_aspaths(then, now)] with the source of each line. *)
Definition ris_compare_aspaths_by_source (then_ now_ : snapshot)
  : result (list (string * string)) :=
  then_states <- get_bgp_state then_ ;;
  let then_paths := collect_paths then_states Dict.empty in
  now_states <- get_bgp_state now_ ;;
  let now_paths := collect_paths now_states Dict.empty in
  Ok (report_changes (Dict.items then_paths) now_paths).

(** [ris_compare_aspaths(then, now)]: the lines written to standard
    output, or the exception raised. *)
Definition ris_compare_aspaths (then_ now_ : snapshot) : result (list string) :=
  changes <- ris_compare_aspaths_by_source then_ now_ ;;
  Ok (map snd changes).

(** [validate_target(target)].  Each [try] catches [ValueError] only, so
    any other exception of the constructor would leave the function. *)
Definition validate_target (target : string) : result bool :=
  if negb (PyStr.contains "/" target) then Ok false
  else if PyStr.contains ":" target then
    match Ipaddress.IPv6Network target with
    | Raise e => if is_ValueError e then Ok false else Raise e
    | Ok _ => Ok true
    end
  else
    match Ipaddress.IPv4Network target with
    | Raise e => if is_ValueError e then Ok false else Raise e
    | Ok _ => Ok true
    end.

(** *** The main block

    What a run does to the outside is a list of events, and it ends with
    [sys.exit] or with an exception nobody catches.  The arguments are the
    ones [argparse] delivers: [n] is [args[0].n], [target] is
    [args[0].target]. *)

Inductive event : Type :=
| PrintHelpStderr
| HttpGet (url : string)
| Print (line : string).

Inductive outcome : Type :=
| Exit (code : Z)
| Traceback (e : exn).

(** The exit status of the process: the argument of [sys.exit], and 1
    after an exception nobody caught. *)
Definition exit_status (o : outcome) : Z :=
  match o with
  | Exit code => code
  | Traceback _ => 1
  end.

(** The three readings of the clock in a run, in the order they are
    taken: [datetime.now()] in the main block, then [date.today()] and
    [datetime.now()] in [ris_get_last_dump_datetime]. *)
Record clock : Type := {
  now_main : datetime;
  today_dump : date;
  now_dump : datetime
}.

Definition main (clk : clock) (http_get : string -> response) (n : Z) (target : string)
  : list event * outcome :=
  match validate_target target with
  | Raise e => ([], Traceback e)
  | Ok false => ([PrintHelpStderr], Exit 1)
  | Ok true =>
      let now := ris_format_timestamp (now_main clk) in
      match ris_get_last_dump_datetime n (today_dump clk) (now_dump clk) with
      | Raise e => ([], Traceback e)
      | Ok last_dump =>
          let then_ := ris_format_timestamp last_dump in
          let sent1 := [HttpGet (bgp_state_url target then_)] in
          match ris_get_bgp_state http_get target then_ with
          | Raise e => (sent1, Traceback e)
          | Ok then_res =>
              let sent2 := sent1 ++ [HttpGet (bgp_state_url target now)] in
              match ris_get_bgp_state http_get target now with
              | Raise e => (sent2, Traceback e)
              | Ok now_res =>
                  match ris_compare_aspaths then_res now_res with
                  | Raise e => (sent2, Traceback e)
                  | Ok lines => (sent2 ++ map Print lines, Exit 0)
                  end
              end
          end
      end
  end.

(** A run makes a network call when its events contain a request. *)
Definition is_HttpGet (ev : event) : bool :=
  match ev with
  | HttpGet _ => true
  | PrintHelpStderr | Print _ => false
  end.

(** ** Vocabulary of the statements *)

Unset Implicit Arguments.

(** A list of timestamps is in chronological order. *)
Definition chronological (a : list datetime) : Prop :=
  forall i j x y, (i <= j)%nat ->
    nth_error a i = Some x -> nth_error a j = Some y -> x <= y.

(** Every element before position [k] is at most [x]. *)
Definition upto (a : list datetime) (x : datetime) (k : nat) : Prop :=
  forall i y, (i < k)%nat -> nth_error a i = Some y -> y <= x.

(** Every element from position [k] on is strictly after [x]. *)
Definition after (a : list datetime) (x : datetime) (k : nat) : Prop :=
  forall i y, (k <= i)%nat -> nth_error a i = Some y -> x < y.

(** [t] is the earliest element of [a] strictly after [x]. *)
Definition earliest_after (a : list datetime) (x t : datetime) : Prop :=
  In t a /\ x < t /\ forall t', In t' a -> x < t' -> t <= t'.

(** The moment [ris_get_last_dump_datetime] looks for. *)
Definition target_dt (n : Z) (now : datetime) : datetime :=
  now - n * (8 * US_PER_HOUR).

(** The source-ids a snapshot has records for. *)
Definition source_ids (x : snapshot) : list string :=
  match x with
  | Some reply => map source_id (data_bgp_state reply)
  | None => []
  end.

(** The path a list of records gives for a source: the path of the last
    record with that id. *)
Definition recorded_path (sid : string) (states : list bgp_state) : option (list Z) :=
  option_map path (find (fun st => String.eqb (source_id st) sid) (rev states)).

(** An address has a bit set below a mask of [p] leading bits out of
    [width]. *)
Definition host_bits_set (width a p : Z) : Prop :=
  exists i, 0 <= i < width - p /\ Z.testbit a i = true.

(** A computation raises nothing but [ValueError] and its subclasses. *)
Definition raises_only_ValueError {A : Type} (r : result A) : Prop :=
  forall e, r = Raise e -> is_ValueError e = true.

(** The elements of a list in the order in which they first occur. *)
Fixpoint first_occurrences (l : list string) : list string :=
  match l with
  | [] => []
  | x :: rest => x :: filter (fun y => negb (String.eqb x y)) (first_occurrences rest)
  end.

(** The line two lists of records give rise to for a source: one line
    when both record a path for it and the paths differ, none
    otherwise. *)
Definition change_of (then_states now_states : list bgp_state) (sid : string)
  : list (string * string) :=
  match recorded_path sid then_states, recorded_path sid now_states with
  | Some p, Some q => if lists_equal p q then [] else [(sid, format_change p q)]
  | _, _ => []
  end.

(** The text of a path in an output line. *)
Definition path_text (p : list Z) : string := Fmt.join " " (map Fmt.str_int p).

(** [k] is one of [keys]. *)
Definition is_key (keys : list string) (k : string) : bool :=
  existsb (fun k' => String.eqb k' k) keys.

(** [f] holds of every number from 0 below [n]. *)
Fixpoint all_below (f : Z -> bool) (n : nat) : bool :=
  match n with
  | O => true
  | S k => f (Z.of_nat k) && all_below f k
  end.

(** The first [k] moments from [cur] on that are [step] apart. *)
Fixpoint grid (k : nat) (step cur : Z) : list Z :=
  match k with
  | O => []
  | S k' => cur :: grid k' step (cur + step)
  end.

(** How many candidates there are for a lookback count and a day: three
    for each of the [n] days, as far as the days are not after
    9999-12-31. *)
Definition dump_count (n today : Z) : nat :=
  Z.to_nat (Z.min (3 * n) (3 * (MAXORDINAL - today))).

(** The candidates from today's midnight on, eight hours apart. *)
Definition candidates (n today : Z) : list Z :=
  grid (dump_count n today) (8 * US_PER_HOUR) (datetime_of_date today).

(** ** Timestamp resolution *)

Section TimeFacts.

Lemma nth_error_lt {A : Type} (l : list A) i y :
  nth_error l i = Some y -> (i < List.length l)%nat.
Proof. intros H. apply nth_error_Some. rewrite H. discriminate. Qed.

Lemma grid_length k step cur : List.length (grid k step cur) = k.
Proof.
  revert cur; induction k as [|k IH]; intros cur; simpl; [reflexivity|].
  now rewrite IH.
Qed.

Lemma grid_nth k step cur i :
  (i < k)%nat -> nth_error (grid k step cur) i = Some (cur + Z.of_nat i * step).
Proof.
  revert cur i; induction k as [|k IH]; intros cur i Hi; [lia|].
  destruct i as [|i]; cbn [grid nth_error].
  - f_equal; lia.
  - rewrite IH by lia. f_equal. rewrite Nat2Z.inj_succ. lia.
Qed.

Lemma grid_chronological k step cur : 0 <= step -> chronological (grid k step cur).
Proof.
  intros Hstep i j x y Hij Hx Hy.
  assert (Hj : (j < k)%nat).
  { rewrite <- (grid_length k step cur). eapply nth_error_lt; eassumption. }
  rewrite grid_nth in Hx, Hy by lia.
  injection Hx as <-. injection Hy as <-. nia.
Qed.

(** The generator yields the moments of the grid, [count] of them or as
    many as lie before the year 10000. *)
Lemma rrule_iter_grid c step cur k :
  0 <= step -> (k <= c)%nat ->
  (forall i, (i < k)%nat -> cur + Z.of_nat i * step < DATETIME_END) ->
  ((k < c)%nat -> DATETIME_END <= cur + Z.of_nat k * step) ->
  rrule_iter c step cur = grid k step cur.
Proof.
  intros Hstep. revert cur k; induction c as [|c IH]; intros cur k Hk Hfit Hstop.
  - assert (k = 0%nat) by lia. subst k. reflexivity.
  - cbn [rrule_iter]. destruct k as [|k].
    + specialize (Hstop ltac:(lia)). change (Z.of_nat 0) with 0 in Hstop.
      assert (Hlt : (cur <? DATETIME_END) = false) by (apply Z.ltb_ge; lia).
      rewrite Hlt. reflexivity.
    + pose proof (Hfit 0%nat ltac:(lia)) as H0. change (Z.of_nat 0) with 0 in H0.
      assert (Hlt : (cur <? DATETIME_END) = true) by (apply Z.ltb_lt; lia).
      rewrite Hlt. cbn [grid]. f_equal. apply IH; [lia| |].
      * intros i Hi. specialize (Hfit (S i) ltac:(lia)).
        rewrite Nat2Z.inj_succ in Hfit. lia.
      * intros Hlt'. specialize (Hstop ltac:(lia)).
        rewrite Nat2Z.inj_succ in Hstop. lia.
Qed.

Lemma small_fits_float n : Z.abs n < 2 ^ 62 -> fits_float n = true.
Proof.
  intros Hn. unfold fits_float. apply Z.ltb_lt.
  assert (Hlimit : 2 ^ 62 < FLOAT_LIMIT) by (vm_compute; reflexivity). lia.
Qed.

(** [ris_get_dump_times] returns the candidates, and raises for a count
    [float] does not take. *)
Lemma ris_get_dump_times_eq n today :
  ris_get_dump_times n today
  = if fits_float n then Ok (candidates n today) else Raise OverflowError.
Proof.
  unfold ris_get_dump_times. destruct (fits_float n); cbn [negb]; [|reflexivity].
  f_equal. unfold rrule_hourly, candidates, HOURS_PER_DAY, RIPE_RIS_INTERVAL, hours.
  change (24 / 8) with 3.
  apply rrule_iter_grid; unfold dump_count, DATETIME_END, datetime_of_date,
    MAXORDINAL, US_PER_DAY, US_PER_HOUR in *; lia.
Qed.

Lemma candidates_chronological n today : chronological (candidates n today).
Proof. apply grid_chronological. unfold US_PER_HOUR. lia. Qed.

(** The candidates are today's midnight plus a multiple of eight hours,
    below [3 * n] of them and not after 9999-12-31. *)
Lemma candidate_iff n today t :
  In t (candidates n today)
  <-> exists i, 0 <= i < 3 * n /\ i < 3 * (MAXORDINAL - today)
                /\ t = datetime_of_date today + i * (8 * US_PER_HOUR).
Proof.
  unfold candidates. split.
  - intros Hin. apply In_nth_error in Hin as [i Hi].
    pose proof (nth_error_lt _ _ _ Hi) as Hlt. rewrite grid_length in Hlt.
    rewrite grid_nth in Hi by assumption. injection Hi as <-.
    exists (Z.of_nat i). unfold dump_count in Hlt. repeat split; lia.
  - intros (i & Hi & Hcap & ->).
    apply nth_error_In with (n := Z.to_nat i).
    rewrite grid_nth by (unfold dump_count; lia). rewrite Z2Nat.id by lia. reflexivity.
Qed.

Lemma bisect_loop_spec a x lo hi :
  (lo <= hi <= List.length a)%nat ->
  exists k, bisect_loop a x lo hi = Ok k /\ (lo <= k <= hi)%nat /\
    (chronological a -> upto a x lo -> after a x hi ->
     upto a x k /\ after a x k).
Proof.
  funelim (bisect_loop a x lo hi); intros Hb.
  - (* lo >= hi: return lo *)
    exists lo. split; [reflexivity|]. split; [lia|].
    intros _ Hlo Hhi. split; [exact Hlo|].
    intros i y Hi Hy. apply (Hhi i); [lia|assumption].
  - (* a[mid] out of range: excluded by hi <= len(a) *)
    exfalso.
    assert (Hm : ((lo + hi) / 2 < hi)%nat)
      by (apply Nat.Div0.div_lt_upper_bound; lia).
    apply nth_error_None in Heq. lia.
  - (* x < a[mid]: hi = mid *)
    set (mid := ((lo + hi) / 2)%nat) in *.
    assert (Hm : (lo <= mid < hi)%nat).
    { subst mid. split; [apply Nat.div_le_lower_bound | apply Nat.Div0.div_lt_upper_bound]; lia. }
    destruct H as (k & Hk & Hr & Hspec); [lia|].
    exists k. split; [exact Hk|]. split; [lia|].
    intros Hs Hlo Hhi. apply Hspec; [assumption..|].
    intros i y Hi Hy. apply Z.lt_le_trans with am; [assumption|].
    apply (Hs mid i); assumption.
  - (* a[mid] <= x: lo = mid + 1 *)
    set (mid := ((lo + hi) / 2)%nat) in *.
    assert (Hm : (lo <= mid < hi)%nat).
    { subst mid. split; [apply Nat.div_le_lower_bound | apply Nat.Div0.div_lt_upper_bound]; lia. }
    destruct H as (k & Hk & Hr & Hspec); [lia|].
    exists k. split; [exact Hk|]. split; [lia|].
    intros Hs Hlo Hhi. apply Hspec; [assumption| |assumption].
    intros i y Hi Hy. apply Z.le_trans with am; [|lia].
    apply (Hs i mid); [lia|assumption..].
Qed.

(** [bisect] returns on every list; on a chronological one the index
    it returns splits the list at [x]. *)
Lemma bisect_spec a x :
  exists k, bisect a x = Ok k /\ (k <= List.length a)%nat /\
    (chronological a -> upto a x k /\ after a x k).
Proof.
  destruct (bisect_loop_spec a x 0 (List.length a)) as (k & Hk & Hr & Hspec); [lia|].
  exists k. split; [exact Hk|]. split; [lia|].
  intros Hs. apply Hspec; [assumption| |].
  - intros i y Hi _. lia.
  - intros i y Hi Hy.
    apply nth_error_lt in Hy. lia.
Qed.

(** The lookup on a chronological list: the element [bisect] points at
    is the earliest one after [x], and there is none when the lookup
    raises. *)
Lemma lookup_after a x :
  chronological a ->
  match (i <- bisect a x ;; getitem a i) with
  | Ok t => earliest_after a x t
  | Raise e => e = IndexError /\ forall t, In t a -> t <= x
  end.
Proof.
  intros Hs.
  destruct (bisect_spec a x) as (k & Hk & Hlen & Hspec).
  destruct (Hspec Hs) as [Hup Haf].
  rewrite Hk. cbn [bind]. unfold getitem.
  destruct (nth_error a k) as [t|] eqn:Hnth.
  - split; [eapply nth_error_In; eassumption|].
    split; [apply (Haf k); [lia|assumption]|].
    intros t' Hin Hlt. apply In_nth_error in Hin as [j Hj].
    destruct (Nat.lt_ge_cases j k) as [Hjk|Hjk].
    + specialize (Hup j t' Hjk Hj). lia.
    + apply (Hs k j); assumption.
  - split; [reflexivity|].
    intros t Hin. apply In_nth_error in Hin as [j Hj].
    apply nth_error_None in Hnth.
    pose proof (nth_error_lt _ _ _ Hj).
    apply (Hup j); [lia|assumption].
Qed.

Lemma date_of_bounds now today :
  date_of now = today ->
  datetime_of_date today <= now < datetime_of_date today + US_PER_DAY.
Proof.
  unfold date_of, datetime_of_date, US_PER_DAY, US_PER_HOUR. intros <-.
  pose proof (Z.div_mod now (24 * 3600000000) ltac:(lia)) as Hdm.
  pose proof (Z.mod_pos_bound now (24 * 3600000000) ltac:(lia)) as Hmod.
  lia.
Qed.

Lemma earliest_after_unique a x t t' :
  earliest_after a x t -> earliest_after a x t' -> t = t'.
Proof.
  intros (Hin & Hlt & Hmin) (Hin' & Hlt' & Hmin').
  specialize (Hmin t' Hin' Hlt'). specialize (Hmin' t Hin Hlt). lia.
Qed.

(** What [ris_get_last_dump_datetime] returns is the earliest candidate
    after the target moment. *)
Lemma lookup_Ok n today now t :
  ris_get_last_dump_datetime n today now = Ok t ->
  earliest_after (candidates n today) (target_dt n now) t.
Proof.
  unfold ris_get_last_dump_datetime. rewrite ris_get_dump_times_eq.
  destruct (fits_float n); [|discriminate]. cbn [bind].
  unfold timedelta_hours. destruct (_ <? _); [discriminate|]. cbn [bind].
  unfold datetime_sub. destruct (_ && _); [discriminate|]. cbn [bind].
  replace (now - hours (RIPE_RIS_INTERVAL * n)) with (target_dt n now)
    by (unfold target_dt, hours, RIPE_RIS_INTERVAL; lia).
  pose proof (lookup_after _ (target_dt n now) (candidates_chronological n today)) as H.
  intros Ht. rewrite Ht in H. exact H.
Qed.


(** A target moment before the first moment of [datetime] makes the
    function raise [OverflowError]. *)
Lemma lookup_overflow n today now :
  is_datetime now = true -> target_dt n now < 0 ->
  ris_get_last_dump_datetime n today now = Raise OverflowError.
Proof.
  intros Hnow Htarget. unfold ris_get_last_dump_datetime.
  rewrite ris_get_dump_times_eq.
  destruct (fits_float n); [|reflexivity]. cbn [bind].
  unfold timedelta_hours. destruct (_ <? _); [reflexivity|]. cbn [bind].
  unfold datetime_sub. rewrite Hnow.
  replace (now - hours (RIPE_RIS_INTERVAL * n)) with (target_dt n now)
    by (unfold target_dt, hours, RIPE_RIS_INTERVAL; lia).
  assert (Hout : is_datetime (target_dt n now) = false).
  { unfold is_datetime. apply andb_false_iff. left. apply Z.leb_gt. exact Htarget. }
  rewrite Hout. reflexivity.
Qed.

(** A lookback count of 0 gives no candidate and an index out of
    range. *)
Lemma lookup_zero today now :
  ris_get_dump_times 0 today = Ok []
  /\ ris_get_last_dump_datetime 0 today now = Raise IndexError.
Proof.
  assert (Htimes : ris_get_dump_times 0 today = Ok []) by reflexivity.
  split; [exact Htimes|].
  unfold ris_get_last_dump_datetime. rewrite Htimes. cbn [bind].
  change (timedelta_hours (RIPE_RIS_INTERVAL * 0)) with (@Ok Z 0). cbn [bind].
  unfold datetime_sub. rewrite Z.sub_0_r.
  destruct (is_datetime now); reflexivity.
Qed.

(** With [n >= 1], clock readings of one day and a target moment that
    [datetime] can hold, the function returns. *)
Lemma lookup_returns n today now :
  1 <= n -> is_datetime now = true -> date_of now = today ->
  0 <= target_dt n now ->
  exists t, ris_get_last_dump_datetime n today now = Ok t.
Proof.
  intros Hn Hnow Hday Htarget.
  apply andb_true_iff in Hnow as [Hlo Hhi].
  apply Z.leb_le in Hlo. apply Z.ltb_lt in Hhi.
  pose proof (date_of_bounds _ _ Hday) as Hbounds.
  assert (Hsmall : n < 3 * MAXORDINAL /\ today < MAXORDINAL).
  { unfold target_dt, DATETIME_END, datetime_of_date, MAXORDINAL, US_PER_DAY,
      US_PER_HOUR in *. lia. }
  unfold ris_get_last_dump_datetime. rewrite ris_get_dump_times_eq.
  rewrite small_fits_float by (unfold MAXORDINAL in Hsmall; lia). cbn [bind].
  assert (Hdelta : timedelta_hours (RIPE_RIS_INTERVAL * n)
                   = Ok (hours (RIPE_RIS_INTERVAL * n))).
  { unfold timedelta_hours.
    assert (Hdays : (999999999 <? Z.abs (hours (RIPE_RIS_INTERVAL * n) / US_PER_DAY))
                    = false).
    { apply Z.ltb_ge. unfold hours, RIPE_RIS_INTERVAL, US_PER_DAY, US_PER_HOUR,
        MAXORDINAL in *.
      assert (0 <= 8 * n * 3600000000 / (24 * 3600000000) <= 8 * n)
        by (split; [apply Z.div_pos | apply Z.div_le_upper_bound]; lia).
      lia. }
    now rewrite Hdays. }
  rewrite Hdelta. cbn [bind].
  replace (hours (RIPE_RIS_INTERVAL * n)) with (n * (8 * US_PER_HOUR))
    by (unfold hours, RIPE_RIS_INTERVAL; lia).
  fold (target_dt n now).
  assert (Hsub : datetime_sub now (n * (8 * US_PER_HOUR)) = Ok (target_dt n now)).
  { unfold datetime_sub. fold (target_dt n now).
    assert (Hin : is_datetime (target_dt n now) = true).
    { unfold is_datetime. apply andb_true_iff. split; [apply Z.leb_le | apply Z.ltb_lt].
      - exact Htarget.
      - unfold target_dt, US_PER_HOUR in *. lia. }
    rewrite Hin, andb_false_r. reflexivity. }
  rewrite Hsub. cbn [bind].
  pose proof (lookup_after _ (target_dt n now) (candidates_chronological n today)) as H.
  destruct (i <- bisect _ _ ;; getitem _ i) as [t|e]; [now exists t|].
  destruct H as [_ Hall]. exfalso.
  specialize (Hall (datetime_of_date today + 2 * (8 * US_PER_HOUR))).
  assert (Hin : In (datetime_of_date today + 2 * (8 * US_PER_HOUR)) (candidates n today)).
  { apply candidate_iff. exists 2. repeat split; lia. }
  specialize (Hall Hin).
  unfold target_dt, datetime_of_date, US_PER_DAY, US_PER_HOUR in *. lia.
Qed.

(** The timestamp returned, in closed form: count the eight-hour slots
    from today's midnight up to the target moment, one more, and not
    below zero. *)
Lemma lookup_closed_form n today now t :
  1 <= n -> date_of now = today ->
  ris_get_last_dump_datetime n today now = Ok t ->
  t = datetime_of_date today
      + Z.max 0 ((target_dt n now - datetime_of_date today) / (8 * US_PER_HOUR) + 1)
        * (8 * US_PER_HOUR).
Proof.
  intros Hn Hday Ht. apply lookup_Ok in Ht.
  apply (earliest_after_unique _ _ _ _ Ht).
  destruct Ht as (Hin & _). apply candidate_iff in Hin as (i0 & Hi0 & Hcap & _).
  apply date_of_bounds in Hday.
  unfold target_dt, datetime_of_date, US_PER_DAY, US_PER_HOUR in *.
  change (8 * 3600000000) with 28800000000 in *.
  change (24 * 3600000000) with 86400000000 in *.
  set (q := (now - n * 28800000000 - today * 86400000000) / 28800000000).
  assert (Hq : 28800000000 * q <= now - n * 28800000000 - today * 86400000000
               < 28800000000 * q + 28800000000).
  { subst q.
    pose proof (Z.div_mod (now - n * 28800000000 - today * 86400000000) 28800000000
                  ltac:(lia)).
    pose proof (Z.mod_pos_bound (now - n * 28800000000 - today * 86400000000)
                  28800000000 ltac:(lia)).
    lia. }
  split; [|split].
  - apply candidate_iff. exists (Z.max 0 (q + 1)).
    unfold datetime_of_date, US_PER_DAY, US_PER_HOUR.
    change (8 * 3600000000) with 28800000000.
    change (24 * 3600000000) with 86400000000.
    repeat split; lia.
  - lia.
  - intros t' Hin Hlt. apply candidate_iff in Hin as (i & Hi & _ & ->).
    unfold datetime_of_date, US_PER_DAY, US_PER_HOUR in *.
    change (8 * 3600000000) with 28800000000 in *.
    change (24 * 3600000000) with 86400000000 in *.
    assert (Z.max 0 (q + 1) <= i) by lia. nia.
Qed.

End TimeFacts.

(** ** Dictionaries and the comparison *)

Section DictFacts.

Context {V : Type}.

Lemma get_set (k k0 : string) (v : V) (d : Dict.dict V) :
  Dict.get k (Dict.set k0 v d) = if String.eqb k0 k then Some v else Dict.get k d.
Proof.
  induction d as [|[k' v'] d IH]; cbn [Dict.set Dict.get].
  - reflexivity.
  - destruct (String.eqb k' k0) eqn:E0; cbn [Dict.get].
    + apply String.eqb_eq in E0. subst k'.
      destruct (String.eqb k0 k); reflexivity.
    + destruct (String.eqb k' k) eqn:E.
      * apply String.eqb_eq in E. subst k'.
        rewrite String.eqb_sym, E0. reflexivity.
      * exact IH.
Qed.

Lemma set_keys_NoDup (k : string) (v : V) (d : Dict.dict V) :
  NoDup (map fst d) -> NoDup (map fst (Dict.set k v d))
  /\ forall k', In k' (map fst (Dict.set k v d)) <-> k' = k \/ In k' (map fst d).
Proof.
  induction d as [|[k0 v0] d IH]; cbn [Dict.set map fst]; intros Hnd.
  - split; [repeat constructor; intros []|]. intros k'. cbn. intuition.
  - inversion Hnd as [|? ? Hnotin Hnd']; subst.
    destruct (String.eqb k0 k) eqn:E; cbn [map fst].
    + apply String.eqb_eq in E. subst k0.
      split; [assumption|]. intros k'. cbn. intuition.
    + destruct (IH Hnd') as [IHnd IHin].
      split.
      * constructor; [|assumption]. rewrite IHin. intros [->|Hin]; [|contradiction].
        rewrite String.eqb_refl in E. discriminate.
      * intros k'. cbn. rewrite IHin. intuition.
Qed.

(** In a dictionary without repeated keys, the items are the
    bindings. *)
Lemma In_items_get (k : string) (v : V) (d : Dict.dict V) :
  NoDup (map fst d) -> (In (k, v) d <-> Dict.get k d = Some v).
Proof.
  induction d as [|[k0 v0] d IH]; cbn [map fst Dict.get]; intros Hnd.
  - split; [intros [] | discriminate].
  - inversion Hnd as [|? ? Hnotin Hnd']; subst.
    destruct (String.eqb k0 k) eqn:E.
    + apply String.eqb_eq in E. subst k0. split.
      * intros [Heq|Hin]; [congruence|].
        exfalso. apply Hnotin. apply (in_map fst) in Hin. exact Hin.
      * intros [= ->]. now left.
    + rewrite <- (IH Hnd'). split.
      * intros [[= -> ->]|Hin]; [|assumption].
        rewrite String.eqb_refl in E. discriminate.
      * intros Hin. now right.
Qed.

End DictFacts.

Section CompareFacts.

Lemma forallb_combine_eq (a b : list Z) :
  List.length a = List.length b ->
  (forallb (fun p => fst p =? snd p) (combine a b) = true <-> a = b).
Proof.
  revert b; induction a as [|x a IH]; intros [|y b] Hlen; try discriminate.
  - split; reflexivity.
  - cbn [combine forallb fst snd]. rewrite andb_true_iff, Z.eqb_eq.
    rewrite (IH b) by (cbn in Hlen; lia).
    split; [intros [-> ->]; reflexivity | intros [= -> ->]; split; reflexivity].
Qed.

(** [lists_equal] decides equality of the two sequences. *)
Lemma lists_equal_iff (a b : list Z) : lists_equal a b = true <-> a = b.
Proof.
  unfold lists_equal.
  destruct (List.length a =? List.length b)%nat eqn:E; cbn [negb].
  - apply Nat.eqb_eq in E. now apply forallb_combine_eq.
  - apply Nat.eqb_neq in E. split; [discriminate|]. intros ->. contradiction.
Qed.

Lemma lists_equal_false_iff (a b : list Z) : lists_equal a b = false <-> a <> b.
Proof.
  rewrite <- lists_equal_iff. destruct (lists_equal a b); split; congruence.
Qed.

Lemma find_snoc {A : Type} (f : A -> bool) (l : list A) (x : A) :
  find f (l ++ [x])
  = match find f l with
    | Some y => Some y
    | None => if f x then Some x else None
    end.
Proof.
  induction l as [|y l IH]; cbn [app find]; [reflexivity|].
  destruct (f y); [reflexivity | exact IH].
Qed.

Lemma recorded_path_cons sid st states :
  recorded_path sid (st :: states)
  = match recorded_path sid states with
    | Some p => Some p
    | None => if String.eqb (source_id st) sid then Some (path st) else None
    end.
Proof.
  unfold recorded_path. cbn [rev]. rewrite find_snoc.
  destruct (find _ (rev states)); cbn [option_map]; [reflexivity|].
  destruct (String.eqb (source_id st) sid); reflexivity.
Qed.

(** A source has a recorded path exactly when the list has a record
    for it. *)
Lemma recorded_path_None sid states :
  recorded_path sid states = None <-> ~ In sid (map source_id states).
Proof.
  induction states as [|st states IH]; [cbn; intuition|].
  rewrite recorded_path_cons. cbn [map In].
  destruct (recorded_path sid states) as [p|].
  - split; [discriminate|]. intros Hn. exfalso.
    assert (Hin : ~ In sid (map source_id states)) by tauto.
    apply IH in Hin. discriminate.
  - destruct (String.eqb (source_id st) sid) eqn:E.
    + apply String.eqb_eq in E. split; [discriminate | tauto].
    + apply String.eqb_neq in E. split; [|reflexivity].
      intros _ [Heq|Hin]; [contradiction|]. now apply IH.
Qed.

(** After the collecting loop, a key is bound to the path recorded for
    it, and keeps its earlier binding when the list has no record for
    it. *)
Lemma collect_paths_get sid states paths :
  Dict.get sid (collect_paths states paths)
  = match recorded_path sid states with
    | Some p => Some p
    | None => Dict.get sid paths
    end.
Proof.
  revert paths; induction states as [|st states IH]; intros paths.
  - reflexivity.
  - cbn [collect_paths]. rewrite IH, recorded_path_cons, get_set.
    destruct (recorded_path sid states); [reflexivity|].
    destruct (String.eqb (source_id st) sid); reflexivity.
Qed.

Lemma collect_paths_NoDup states paths :
  NoDup (map fst paths) -> NoDup (map fst (collect_paths states paths)).
Proof.
  revert paths; induction states as [|st states IH]; intros paths Hnd.
  - exact Hnd.
  - cbn [collect_paths]. apply IH. now apply set_keys_NoDup.
Qed.

(** What the reporting loop prints: one line for every item whose key
    is in [now_paths] with a different path. *)
Lemma report_changes_In items now_paths sid line :
  In (sid, line) (report_changes items now_paths)
  <-> exists p q, In (sid, p) items /\ Dict.get sid now_paths = Some q
                  /\ p <> q /\ line = format_change p q.
Proof.
  induction items as [|[k p0] items IH]; cbn [report_changes].
  - split; [intros [] | intros (p & q & [] & _)].
  - destruct (Dict.get k now_paths) as [q0|] eqn:Hget.
    + destruct (lists_equal p0 q0) eqn:Heq; cbn [negb].
      * apply lists_equal_iff in Heq. rewrite IH. split.
        -- intros (p & q & Hin & Hq & Hne & Hl). exists p, q. cbn. auto.
        -- intros (p & q & [[= -> ->]|Hin] & Hq & Hne & Hl).
           ++ exfalso. congruence.
           ++ exists p, q. auto.
      * apply lists_equal_false_iff in Heq. cbn [In]. rewrite IH. split.
        -- intros [[= <- <-]|(p & q & Hin & Hq & Hne & Hl)].
           ++ exists p0, q0. cbn. auto.
           ++ exists p, q. cbn. auto.
        -- intros (p & q & [[= -> ->]|Hin] & Hq & Hne & Hl).
           ++ left. congruence.
           ++ right. exists p, q. auto.
    + rewrite IH. split.
      * intros (p & q & Hin & Hq & Hne & Hl). exists p, q. cbn. auto.
      * intros (p & q & [[= -> ->]|Hin] & Hq & Hne & Hl).
        -- congruence.
        -- exists p, q. auto.
Qed.

(** The comparison of two documents, in terms of the recorded paths. *)
Lemma compare_documents then_states now_states :
  exists changes,
    ris_compare_aspaths_by_source
      (Some {| data_bgp_state := then_states |})
      (Some {| data_bgp_state := now_states |}) = Ok changes
    /\ forall sid line,
         In (sid, line) changes
         <-> exists p q, recorded_path sid then_states = Some p
                         /\ recorded_path sid now_states = Some q
                         /\ p <> q /\ line = format_change p q.
Proof.
  eexists. split; [reflexivity|].
  intros sid line. rewrite report_changes_In. unfold Dict.items.
  cbn [data_bgp_state].
  assert (Hnd : NoDup (map fst (collect_paths then_states (@Dict.empty (list Z)))))
    by (apply collect_paths_NoDup; constructor).
  split; intros (p & q & Hp & Hq & Hrest); exists p, q.
  - apply (In_items_get _ _ _ Hnd) in Hp.
    rewrite collect_paths_get in Hp, Hq.
    destruct (recorded_path sid then_states); [|cbn in Hp; discriminate].
    destruct (recorded_path sid now_states); [|cbn in Hq; discriminate].
    injection Hp as ->. injection Hq as ->. auto.
  - split; [apply (In_items_get _ _ _ Hnd)|]; rewrite collect_paths_get.
    + now rewrite Hp.
    + now rewrite Hq.
Qed.

End CompareFacts.

(** C2, as stated, fails: for a large lookback count the subtraction
    [datetime.now() - timedelta(...)] leaves the years 1 to 9999 and the
    function raises instead of returning a timestamp (on 2024-04-25 at
    10:00 with a count of 2300000); and a list that would run past
    9999-12-31 is cut there (two days of candidates asked for on
    9999-12-31 give three timestamps, not six). *)
Lemma large_lookback_returns_no_timestamp :
  0 < 2300000
  /\ date_of (739000 * US_PER_DAY + 10 * US_PER_HOUR) = 739000
  /\ ris_get_last_dump_datetime 2300000 739000 (739000 * US_PER_DAY + 10 * US_PER_HOUR)
     = Raise OverflowError
  /\ exists times, ris_get_dump_times 2 (MAXORDINAL - 1) = Ok times
                   /\ List.length times = 3%nat.
Proof.
  split; [lia|]. split; [reflexivity|]. split.
  - apply lookup_overflow; vm_compute; reflexivity.
  - eexists. split; vm_compute; reflexivity.
Qed.

(** C2, amended: for every positive lookback count and a clock reading
    of today from which [n] times eight hours can be subtracted without
    leaving the years 1 to 9999, the candidate list holds three
    timestamps for each of the [n] days from today that are not after
    9999-12-31 (exactly [3 * n] when all of them are), the i-th being
    today's midnight plus [i] times eight hours, in chronological order,
    and [ris_get_last_dump_datetime] returns the earliest of them that is
    strictly after [now - n * 8 hours].  For a larger count the function
    raises [OverflowError]. *)
Theorem then_is_earliest_candidate_after_target n today now :
  0 < n -> is_datetime now = true -> date_of now = today ->
  (0 <= target_dt n now ->
   exists times,
     ris_get_dump_times n today = Ok times
     /\ List.length times = Z.to_nat (Z.min (3 * n) (3 * (MAXORDINAL - today)))
     /\ (today + n <= MAXORDINAL -> List.length times = Z.to_nat (3 * n))
     /\ (forall i, (i < List.length times)%nat ->
           nth_error times i
           = Some (datetime_of_date today + Z.of_nat i * (8 * US_PER_HOUR)))
     /\ chronological times
     /\ exists t, ris_get_last_dump_datetime n today now = Ok t
                  /\ earliest_after times (target_dt n now) t)
  /\ (target_dt n now < 0 ->
      ris_get_last_dump_datetime n today now = Raise OverflowError).
Proof.
  intros Hn Hnow Hday. split; [|now apply lookup_overflow]. intros Htarget.
  destruct (lookup_returns n today now ltac:(lia) Hnow Hday Htarget) as [t Ht].
  assert (Hfits : fits_float n = true).
  { revert Ht. unfold ris_get_last_dump_datetime. rewrite ris_get_dump_times_eq.
    destruct (fits_float n); [reflexivity | discriminate]. }
  exists (candidates n today). rewrite ris_get_dump_times_eq, Hfits.
  assert (Hlen : List.length (candidates n today)
                 = Z.to_nat (Z.min (3 * n) (3 * (MAXORDINAL - today)))).
  { unfold candidates. now rewrite grid_length. }
  split; [reflexivity|]. split; [exact Hlen|]. split; [|split; [|split]].
  - intros Hfit. rewrite Hlen. f_equal. lia.
  - intros i Hi. unfold candidates in *. rewrite grid_length in Hi.
    now apply grid_nth.
  - apply candidates_chronological.
  - exists t. split; [exact Ht | now apply lookup_Ok].
Qed.

Lemma then_is_earliest_candidate_after_target_witness :
  0 < 3 /\ is_datetime (739000 * US_PER_DAY + 10 * US_PER_HOUR) = true
  /\ date_of (739000 * US_PER_DAY + 10 * US_PER_HOUR) = 739000
  /\ 0 <= target_dt 3 (739000 * US_PER_DAY + 10 * US_PER_HOUR)
  /\ exists times,
       ris_get_dump_times 3 739000 = Ok times
       /\ List.length times = 9%nat
       /\ exists t, ris_get_last_dump_datetime 3 739000
                      (739000 * US_PER_DAY + 10 * US_PER_HOUR) = Ok t
                    /\ earliest_after times
                         (target_dt 3 (739000 * US_PER_DAY + 10 * US_PER_HOUR)) t.
Proof.
  assert (Hpos : 0 < 3) by lia.
  assert (Hnow : is_datetime (739000 * US_PER_DAY + 10 * US_PER_HOUR) = true)
    by reflexivity.
  assert (Hday : date_of (739000 * US_PER_DAY + 10 * US_PER_HOUR) = 739000)
    by reflexivity.
  assert (Htarget : 0 <= target_dt 3 (739000 * US_PER_DAY + 10 * US_PER_HOUR))
    by (unfold target_dt, US_PER_DAY, US_PER_HOUR; lia).
  repeat (split; [assumption|]).
  destruct (proj1 (then_is_earliest_candidate_after_target 3 739000
                     (739000 * US_PER_DAY + 10 * US_PER_HOUR) Hpos Hnow Hday) Htarget)
    as (times & Htimes & Hlen & _ & _ & _ & Hthen).
  exists times. split; [exact Htimes|]. split; [exact Hlen | exact Hthen].
Defined.



(** C10: with a lookback count of 0 the candidate list is empty and
    [ris_get_last_dump_datetime] raises an [IndexError]; nothing in the
    main block stands in the way: a run with a valid target and [n = 0]
    ends in that exception before any request is sent. *)
Theorem zero_lookback_raises_IndexError today now :
  ris_get_dump_times 0 today = Ok []
  /\ ris_get_last_dump_datetime 0 today now = Raise IndexError
  /\ forall clk http_get target,
       validate_target target = Ok true ->
       main clk http_get 0 target = ([], Traceback IndexError).
Proof.
  split; [apply (lookup_zero today now)|]. split; [apply (lookup_zero today now)|].
  intros clk http_get target Hvalid. unfold main.
  rewrite Hvalid, (proj2 (lookup_zero (today_dump clk) (now_dump clk))). reflexivity.
Qed.

Lemma zero_lookback_raises_IndexError_witness :
  validate_target "193.0.14.0/24" = Ok true
  /\ main {| now_main := 739000 * US_PER_DAY + 10 * US_PER_HOUR; today_dump := 739000;
              now_dump := 739000 * US_PER_DAY + 10 * US_PER_HOUR |}
          (fun _ => {| status_code := 200; json := Ok None |}) 0 "193.0.14.0/24"
     = ([], Traceback IndexError).
Proof.
  split; [vm_compute; reflexivity|].
  apply (zero_lookback_raises_IndexError 739000 (739000 * US_PER_DAY + 10 * US_PER_HOUR)).
  vm_compute; reflexivity.
Defined.

(** C4: [lists_equal] returns true exactly when the two sequences are
    equal element by element: equal length and equal elements at every
    position give true, equal length with a differing position gives
    false, differing lengths give false whatever the contents.  For a
    source-id with a path in both snapshots, [ris_compare_aspaths] prints
    a line for it exactly when [lists_equal] is false, and the line shows
    the two paths. *)
Theorem lists_equal_is_elementwise_equality (a b : list Z) :
  (lists_equal a b = true <-> a = b)
  /\ (List.length a = List.length b ->
      (forall i, nth_error a i = nth_error b i) -> lists_equal a b = true)
  /\ (List.length a = List.length b ->
      (exists i, nth_error a i <> nth_error b i) -> lists_equal a b = false)
  /\ (List.length a <> List.length b -> lists_equal a b = false)
  /\ forall then_states now_states sid,
       recorded_path sid then_states = Some a ->
       recorded_path sid now_states = Some b ->
       exists changes,
         ris_compare_aspaths_by_source
           (Some {| data_bgp_state := then_states |})
           (Some {| data_bgp_state := now_states |}) = Ok changes
         /\ ris_compare_aspaths
              (Some {| data_bgp_state := then_states |})
              (Some {| data_bgp_state := now_states |}) = Ok (map snd changes)
         /\ (In sid (map fst changes) <-> lists_equal a b = false)
         /\ (lists_equal a b = false -> In (sid, format_change a b) changes).
Proof.
  split; [apply lists_equal_iff|]. split.
  { intros _ Hnth. apply lists_equal_iff. now apply nth_error_ext. }
  split.
  { intros _ [i Hi]. apply lists_equal_false_iff. intros ->. now apply Hi. }
  split.
  { intros Hlen. apply lists_equal_false_iff. intros ->. now apply Hlen. }
  intros then_states now_states sid Ha Hb.
  destruct (compare_documents then_states now_states) as (changes & Hrun & Hin).
  exists changes. split; [exact Hrun|]. split.
  { unfold ris_compare_aspaths. rewrite Hrun. reflexivity. }
  rewrite lists_equal_false_iff. split.
  - rewrite in_map_iff. split.
    + intros ([sid' line] & Hfst & Hx). cbn in Hfst. subst sid'.
      apply Hin in Hx as (p & q & Hp & Hq & Hne & _). congruence.
    + intros Hne. exists (sid, format_change a b). split; [reflexivity|].
      apply Hin. exists a, b. auto.
  - intros Hne. apply Hin. exists a, b. auto.
Qed.

Lemma lists_equal_is_elementwise_equality_witness :
  recorded_path "1" [ {| source_id := "1"; path := [100; 200; 300] |} ] = Some [100; 200; 300]
  /\ recorded_path "1" [ {| source_id := "1"; path := [100; 250; 300] |} ] = Some [100; 250; 300]
  /\ exists changes,
       ris_compare_aspaths_by_source
         (Some {| data_bgp_state := [ {| source_id := "1"; path := [100; 200; 300] |} ] |})
         (Some {| data_bgp_state := [ {| source_id := "1"; path := [100; 250; 300] |} ] |})
       = Ok changes
       /\ ris_compare_aspaths
            (Some {| data_bgp_state := [ {| source_id := "1"; path := [100; 200; 300] |} ] |})
            (Some {| data_bgp_state := [ {| source_id := "1"; path := [100; 250; 300] |} ] |})
          = Ok (map snd changes)
       /\ (In "1"%string (map fst changes)
           <-> lists_equal [100; 200; 300] [100; 250; 300] = false)
       /\ (lists_equal [100; 200; 300] [100; 250; 300] = false ->
           In ("1"%string, format_change [100; 200; 300] [100; 250; 300]) changes).
Proof.
  split; [reflexivity|]. split; [reflexivity|].
  apply (lists_equal_is_elementwise_equality [100; 200; 300] [100; 250; 300]);
    reflexivity.
Defined.

(** C8: a source-id that has records in only one of the two snapshots
    gets no output line from [ris_compare_aspaths]. *)
Theorem one_sided_source_is_not_reported then_ now_ changes sid :
  ris_compare_aspaths_by_source then_ now_ = Ok changes ->
  (In sid (source_ids then_) /\ ~ In sid (source_ids now_))
  \/ (~ In sid (source_ids then_) /\ In sid (source_ids now_)) ->
  ~ In sid (map fst changes)
  /\ ris_compare_aspaths then_ now_ = Ok (map snd changes).
Proof.
  intros Hrun Hside. split.
  - destruct then_ as [[then_states]|]; [|discriminate].
    destruct now_ as [[now_states]|]; [|discriminate].
    destruct (compare_documents then_states now_states) as (changes' & Hrun' & Hin).
    rewrite Hrun in Hrun'. injection Hrun' as <-.
    cbn [source_ids data_bgp_state] in Hside.
    rewrite in_map_iff. intros ([sid' line] & Hfst & Hx). cbn in Hfst. subst sid'.
    apply Hin in Hx as (p & q & Hp & Hq & _).
    destruct Hside as [[_ Hnot]|[Hnot _]]; apply recorded_path_None in Hnot; congruence.
  - unfold ris_compare_aspaths. rewrite Hrun. reflexivity.
Qed.

Lemma one_sided_source_is_not_reported_witness :
  ~ In "7"%string
      (map fst [("1"%string, format_change [100; 200; 300] [100; 250; 300])]).
Proof.
  apply (one_sided_source_is_not_reported
           (Some {| data_bgp_state := [ {| source_id := "1"; path := [100; 200; 300] |};
                                        {| source_id := "7"; path := [64500; 64501] |} ] |})
           (Some {| data_bgp_state := [ {| source_id := "1"; path := [100; 250; 300] |} ] |})
           [("1"%string, format_change [100; 200; 300] [100; 250; 300])] "7").
  - reflexivity.
  - left. split.
    + cbn. right. left. reflexivity.
    + cbn. intros [H|[]]. discriminate H.
Defined.

(** ** The client and the main block *)

Section ClientFacts.

Variable http_get : string -> response.

Lemma RIPEstat__response_eq res :
  RIPEstat__response res
  = if status_code res =? 200 then json res else Ok None.
Proof.
  unfold RIPEstat__response, VALID_RESP_CODE. cbn [existsb].
  rewrite orb_false_r. reflexivity.
Qed.

(** [ris_get_bgp_state] asks for [bgp_state_url] and passes the answer
    through [__response]. *)
Lemma ris_get_bgp_state_eq resource timestamp :
  ris_get_bgp_state http_get resource timestamp
  = RIPEstat__response (http_get (bgp_state_url resource timestamp)).
Proof. reflexivity. Qed.

End ClientFacts.

(** C7, as stated, fails: a response with status code 200 whose body
    is not JSON makes [res.json()] raise, and [RIPEstat.get] raises with
    it. *)
Lemma get_raises_for_a_body_that_is_not_JSON :
  status_code {| status_code := 200; json := Raise ValueError |} = 200
  /\ RIPEstat_get (fun _ => {| status_code := 200; json := Raise ValueError |})
       (RIPEstat_init (Some RIPE_STAT_BASE_URL)) "bgp-state" None
     = Raise ValueError.
Proof. split; reflexivity. Qed.

(** C7, amended: [RIPEstat.get] evaluates [res.json()] exactly when the
    status code of the response is 200: it then returns the parsed body
    when the body is JSON and raises the decoder's exception when it is
    not; for every other status code it returns [None] without raising,
    whatever the body. *)
Theorem RIPEstat_get_by_status_code http_get self datacall params :
  (status_code
     (http_get (RIPEstat__url self datacall (RIPEstat__querystring self "get" params)))
   = 200 ->
   RIPEstat_get http_get self datacall params
   = json (http_get (RIPEstat__url self datacall (RIPEstat__querystring self "get" params))))
  /\ (status_code
        (http_get (RIPEstat__url self datacall (RIPEstat__querystring self "get" params)))
      <> 200 ->
      RIPEstat_get http_get self datacall params = Ok None)
  /\ (forall body,
        json (http_get (RIPEstat__url self datacall (RIPEstat__querystring self "get" params)))
        = Ok body ->
        exists r, RIPEstat_get http_get self datacall params = Ok r
                  /\ (r = body
                      <-> status_code
                            (http_get (RIPEstat__url self datacall
                                         (RIPEstat__querystring self "get" params)))
                          = 200 \/ body = None))
  /\ (forall e,
        RIPEstat_get http_get self datacall params = Raise e
        <-> status_code
              (http_get (RIPEstat__url self datacall (RIPEstat__querystring self "get" params)))
            = 200
            /\ json (http_get (RIPEstat__url self datacall
                                 (RIPEstat__querystring self "get" params)))
               = Raise e).
Proof.
  unfold RIPEstat_get. rewrite RIPEstat__response_eq.
  set (res := http_get _).
  destruct (status_code res =? 200) eqn:E.
  - apply Z.eqb_eq in E. split; [reflexivity|]. split; [intros H; contradiction|].
    split; [|tauto].
    intros body Hbody. exists body. split; [assumption|]. tauto.
  - apply Z.eqb_neq in E. split; [intros H; contradiction|]. split; [reflexivity|].
    split.
    + intros body Hbody. exists None. split; [reflexivity|].
      split; [intros <-; now right | intros [H| ->]; [contradiction | reflexivity]].
    + intros e. split; [discriminate | intros [H _]; contradiction].
Qed.

Lemma RIPEstat_get_by_status_code_witness :
  status_code
    {| status_code := 200;
       json := Ok (Some {| data_bgp_state :=
                             [{| source_id := "00-1.2.3.4"; path := [100; 200; 300] |}] |}) |}
  = 200
  /\ RIPEstat_get
       (fun _ => {| status_code := 200;
                    json := Ok (Some {| data_bgp_state :=
                                          [{| source_id := "00-1.2.3.4";
                                              path := [100; 200; 300] |}] |}) |})
       (RIPEstat_init (Some RIPE_STAT_BASE_URL)) "bgp-state" None
     = Ok (Some {| data_bgp_state :=
                     [{| source_id := "00-1.2.3.4"; path := [100; 200; 300] |}] |}).
Proof.
  split; [reflexivity|].
  apply (proj1 (RIPEstat_get_by_status_code
                  (fun _ => {| status_code := 200;
                               json := Ok (Some {| data_bgp_state :=
                                                     [{| source_id := "00-1.2.3.4";
                                                         path := [100; 200; 300] |}] |}) |})
                  (RIPEstat_init (Some RIPE_STAT_BASE_URL)) "bgp-state" None)).
  reflexivity.
Defined.

(** ** Target validation *)

Section StringFacts.

Import PyStr.

Lemma contains_app c (a b : string) :
  contains c (a ++ b)%string = contains c a || contains c b.
Proof.
  induction a as [|x a IH]; cbn [String.append contains]; [reflexivity|].
  rewrite IH. apply orb_assoc.
Qed.

Lemma split_not_nil sep s : split sep s <> [].
Proof.
  destruct s as [|a s]; cbn [split]; [discriminate|].
  destruct (Ascii.eqb a sep); [discriminate|].
  destruct (split sep s); discriminate.
Qed.

Lemma split_no_sep sep s : contains sep s = false -> split sep s = [s].
Proof.
  induction s as [|a s IH]; cbn [contains split]; [reflexivity|].
  intros H. apply orb_false_iff in H as [Ha Hs].
  rewrite Ha, (IH Hs). reflexivity.
Qed.

Lemma split_app_sep sep (a b : string) :
  contains sep a = false ->
  split sep (a ++ String sep b)%string = a :: split sep b.
Proof.
  induction a as [|x a IH]; cbn [String.append contains split].
  - intros _. rewrite Ascii.eqb_refl. reflexivity.
  - intros H. apply orb_false_iff in H as [Hx Ha].
    rewrite Hx, (IH Ha). reflexivity.
Qed.

(** More than one part means the separator occurs. *)
Lemma split_parts_contains sep s :
  (2 <= List.length (split sep s))%nat -> contains sep s = true.
Proof.
  intros Hlen. destruct (contains sep s) eqn:E; [reflexivity|].
  rewrite (split_no_sep _ _ E) in Hlen. cbn in Hlen. lia.
Qed.

(** A character of the string is the separator or occurs in a part. *)
Lemma contains_split c sep s :
  contains c s = true ->
  c = sep \/ Exists (fun part => contains c part = true) (split sep s).
Proof.
  induction s as [|a s IH]; cbn [contains split]; [discriminate|].
  intros H. apply orb_true_iff in H as [Ha|Hs].
  - apply Ascii.eqb_eq in Ha. subst a.
    destruct (Ascii.eqb c sep) eqn:E; [left; now apply Ascii.eqb_eq|].
    right. pose proof (split_not_nil sep s) as Hnil.
    destruct (split sep s) as [|part parts]; [contradiction|].
    constructor. cbn [contains]. now rewrite Ascii.eqb_refl.
  - destruct (IH Hs) as [->|Hex]; [now left|]. right.
    destruct (Ascii.eqb a sep); [now constructor 2|].
    destruct (split sep s) as [|part parts]; [inversion Hex|].
    inversion Hex as [? ? Hhd|? ? Htl]; subst.
    + constructor. cbn [contains]. rewrite Hhd. apply orb_true_r.
    + now constructor 2.
Qed.

Lemma partition_head_contains c sep s :
  contains c (fst (fst (partition sep s))) = true -> contains c s = true.
Proof.
  induction s as [|a s IH]; cbn [partition contains]; [discriminate|].
  destruct (Ascii.eqb a sep); [discriminate|].
  destruct (partition sep s) as [[h found] t]. cbn [fst contains] in *.
  intros H. apply orb_true_iff in H as [->|H]; [reflexivity|].
  rewrite (IH H). apply orb_true_r.
Qed.

Lemma forallb_contains (f : ascii -> bool) c s :
  forallb f (list_ascii_of_string s) = true -> contains c s = true -> f c = true.
Proof.
  induction s as [|a s IH]; cbn [list_ascii_of_string forallb contains]; [discriminate|].
  intros Hall Hc. apply andb_true_iff in Hall as [Ha Hs].
  apply orb_true_iff in Hc as [Hc|Hc]; [|now apply IH].
  apply Ascii.eqb_eq in Hc. now subst a.
Qed.

Lemma digits_contain_only_digits c s :
  isascii_isdigit s = true -> is_digit c = false -> contains c s = false.
Proof.
  unfold isascii_isdigit. intros H Hc. apply andb_true_iff in H as [_ Hall].
  destruct (contains c s) eqn:E; [|reflexivity].
  rewrite (forallb_contains _ _ _ Hall E) in Hc. discriminate.
Qed.

End StringFacts.

Section IpaddressFacts.

Import PyStr Ipaddress.

Lemma reraise_Ok {A : Type} e' (c : result A) a :
  reraise_ValueError e' c = Ok a -> c = Ok a.
Proof.
  destruct c as [x|e]; cbn [reraise_ValueError]; [trivial|].
  destruct (is_ValueError e); discriminate.
Qed.

Lemma _parse_octet_digits o b :
  _parse_octet o = Ok b -> isascii_isdigit o = true.
Proof.
  unfold _parse_octet.
  destruct (is_empty o); [discriminate|].
  destruct (isascii_isdigit o); [reflexivity | discriminate].
Qed.

Lemma from_octets_digits octets acc r :
  from_octets octets acc = Ok r ->
  Forall (fun o => isascii_isdigit o = true) octets.
Proof.
  revert acc; induction octets as [|o octets IH]; intros acc; [constructor|].
  cbn [from_octets]. destruct (_parse_octet o) as [b|e] eqn:E; [|discriminate].
  cbn [bind]. intros H. constructor; [eapply _parse_octet_digits; eassumption|].
  eapply IH; eassumption.
Qed.

(** A dotted quad consists of digits and dots. *)
Lemma v4_string_chars s a c :
  v4_ip_int_from_string s = Ok a ->
  is_digit c = false -> c <> "."%char -> contains c s = false.
Proof.
  unfold v4_ip_int_from_string. intros H Hdigit Hdot.
  destruct (is_empty s); [discriminate|].
  destruct (negb _); [discriminate|].
  apply reraise_Ok, from_octets_digits in H.
  destruct (contains c s) eqn:E; [|reflexivity].
  destruct (contains_split _ "."%char _ E) as [->|Hex]; [contradiction|].
  apply Exists_exists in Hex as (part & Hin & Hpart).
  rewrite Forall_forall in H.
  rewrite (digits_contain_only_digits c part (H part Hin) Hdigit) in Hpart.
  discriminate.
Qed.

Lemma IPv4Address_chars addr a :
  IPv4Address addr = Ok a ->
  contains "/" addr = false /\ contains ":" addr = false.
Proof.
  unfold IPv4Address. destruct (contains "/" addr); [discriminate|].
  intros H. split; [reflexivity|].
  apply (v4_string_chars _ _ ":"%char H); [reflexivity | discriminate].
Qed.

Lemma bit_length_nonneg n : 0 <= bit_length n.
Proof.
  unfold bit_length. destruct (n =? 0); [lia|].
  pose proof (Z.log2_nonneg n). lia.
Qed.

Lemma _count_righthand_zero_bits_range number bits :
  0 <= bits -> 0 <= _count_righthand_zero_bits number bits <= bits.
Proof.
  intros Hb. unfold _count_righthand_zero_bits.
  destruct (number =? 0); [lia|].
  pose proof (bit_length_nonneg (Z.land (Z.lnot number) (number - 1))). lia.
Qed.

Lemma _prefix_from_ip_int_range w ip p :
  0 <= w -> _prefix_from_ip_int w ip = Ok p -> 0 <= p <= w.
Proof.
  intros Hw. unfold _prefix_from_ip_int.
  destruct (negb _); [discriminate|]. intros [= <-].
  pose proof (_count_righthand_zero_bits_range ip w Hw). lia.
Qed.

Lemma _prefix_from_prefix_string_Ok w s p :
  _prefix_from_prefix_string w s = Ok p ->
  isascii_isdigit s = true /\ 0 <= p <= w.
Proof.
  unfold _prefix_from_prefix_string.
  destruct (isascii_isdigit s); cbn [negb]; [|discriminate].
  destruct ((0 <=? int10 s) && (int10 s <=? w)) eqn:E; cbn [negb]; [|discriminate].
  intros [= <-]. split; [reflexivity|]. lia.
Qed.

Lemma v4_prefix_from_ip_string_Ok s p :
  v4_prefix_from_ip_string s = Ok p ->
  0 <= p <= 32 /\ contains "/" s = false /\ contains ":" s = false.
Proof.
  unfold v4_prefix_from_ip_string.
  destruct (v4_ip_int_from_string s) as [ip|e] eqn:Hip.
  - intros H. split.
    + destruct (_prefix_from_ip_int IPV4LENGTH ip) as [p'|e'] eqn:Hp.
      * injection H as <-. now apply (_prefix_from_ip_int_range IPV4LENGTH ip).
      * destruct (is_ValueError e'); [|discriminate].
        apply reraise_Ok in H.
        now apply (_prefix_from_ip_int_range IPV4LENGTH _ _ ltac:(unfold IPV4LENGTH; lia)) in H.
    + split; apply (v4_string_chars _ _ _ Hip); (reflexivity || discriminate).
  - destruct e; discriminate.
Qed.

Lemma v4_make_netmask_Ok len m p :
  v4_make_netmask (MaskStr len) = Ok (m, p) ->
  m = _ip_int_from_prefix 32 p /\ 0 <= p <= 32
  /\ contains "/" len = false /\ contains ":" len = false.
Proof.
  unfold v4_make_netmask.
  destruct (_prefix_from_prefix_string IPV4LENGTH len) as [p'|e] eqn:Hp.
  - cbn [bind]. intros [= <- <-]. split; [reflexivity|].
    apply _prefix_from_prefix_string_Ok in Hp as [Hd Hr].
    split; [exact Hr|].
    split; apply digits_contain_only_digits; (assumption || reflexivity).
  - assert (Hip : (prefixlen <- v4_prefix_from_ip_string len ;;
                   Ok (_ip_int_from_prefix IPV4LENGTH prefixlen, prefixlen))
                  = Ok (m, p) ->
                  m = _ip_int_from_prefix 32 p /\ 0 <= p <= 32
                  /\ contains "/" len = false /\ contains ":" len = false).
    { destruct (v4_prefix_from_ip_string len) as [p'|e'] eqn:Hs; [|discriminate].
      cbn [bind]. intros [= <- <-]. split; [reflexivity|].
      now apply v4_prefix_from_ip_string_Ok. }
    destruct e; try discriminate. exact Hip.
Qed.

Lemma v6_make_netmask_Ok len m p :
  v6_make_netmask (MaskStr len) = Ok (m, p) ->
  m = _ip_int_from_prefix 128 p /\ 0 <= p <= 128 /\ contains "/" len = false.
Proof.
  unfold v6_make_netmask.
  destruct (_prefix_from_prefix_string IPV6LENGTH len) as [p'|e] eqn:Hp; [|discriminate].
  cbn [bind]. intros [= <- <-]. split; [reflexivity|].
  apply _prefix_from_prefix_string_Ok in Hp as [Hd Hr].
  split; [exact Hr|].
  apply digits_contain_only_digits; (assumption || reflexivity).
Qed.

(** An IPv6 address has no slash and at least one colon. *)
Lemma IPv6Address_chars addr a :
  IPv6Address addr = Ok a ->
  contains "/" addr = false /\ contains ":" addr = true.
Proof.
  unfold IPv6Address. destruct (contains "/" addr); [discriminate|].
  intros H. split; [reflexivity|].
  unfold _split_scope_id in H.
  pose proof (partition_head_contains ":"%char "%"%char addr) as Hhead.
  destruct (partition "%" addr) as [[addr_str sep] scope_id].
  cbn [fst] in Hhead. apply Hhead.
  assert (Hv6 : v6_ip_int_from_string addr_str = Ok a).
  { destruct (negb sep); [exact H|].
    destruct (is_empty scope_id || contains "%" scope_id); [discriminate | exact H]. }
  unfold v6_ip_int_from_string in Hv6.
  destruct (is_empty addr_str); [discriminate|].
  destruct (List.length (split ":" addr_str) <? 3)%nat eqn:Hlen; [discriminate|].
  apply Nat.ltb_ge in Hlen. apply split_parts_contains. lia.
Qed.

(** The strict test of the network constructors fails on an address
    with a bit set below the mask. *)
Lemma host_bits_fail_strict_check w a p :
  0 <= p -> host_bits_set w a p ->
  (Z.land a (_ip_int_from_prefix w p) =? a) = false.
Proof.
  intros Hp (i & Hi & Hbit). apply Z.eqb_neq. intros Heq.
  assert (Hland : Z.testbit (Z.land a (_ip_int_from_prefix w p)) i = true)
    by (rewrite Heq; exact Hbit).
  rewrite Z.land_spec, Hbit in Hland. cbn [andb] in Hland.
  unfold _ip_int_from_prefix, ALL_ONES in Hland.
  replace (2 ^ w - 1) with (Z.ones w) in Hland
    by (rewrite Z.ones_equiv; unfold Z.pred; lia).
  rewrite Z.lxor_spec, Z.shiftr_spec in Hland by lia.
  rewrite !Z.ones_spec_low in Hland by lia.
  discriminate.
Qed.

Lemma split_address_and_mask (addr len : string) :
  contains "/" addr = false -> contains "/" len = false ->
  split "/" (addr ++ "/" ++ len)%string = [addr; len].
Proof.
  intros Ha Hl.
  change (addr ++ "/" ++ len)%string with (addr ++ String "/" len)%string.
  rewrite (split_app_sep _ _ _ Ha), (split_no_sep _ _ Hl). reflexivity.
Qed.

End IpaddressFacts.

(** *** The constructors raise [ValueError]s only *)

Section OnlyValueErrors.

Import PyStr Ipaddress.

Lemma Ok_raises_only {A : Type} (a : A) : raises_only_ValueError (Ok a).
Proof. intros e H. discriminate H. Qed.

Lemma Raise_raises_only {A : Type} e0 :
  is_ValueError e0 = true -> raises_only_ValueError (@Raise A e0).
Proof. intros H e [= <-]. exact H. Qed.

Lemma bind_raises_only {A B : Type} (c : result A) (k : A -> result B) :
  raises_only_ValueError c ->
  (forall a, c = Ok a -> raises_only_ValueError (k a)) ->
  raises_only_ValueError (bind c k).
Proof.
  intros Hc Hk. destruct c as [a|e0]; cbn [bind].
  - now apply Hk.
  - apply Raise_raises_only. now apply Hc.
Qed.

Lemma reraise_raises_only {A : Type} e' (c : result A) :
  is_ValueError e' = true -> raises_only_ValueError c ->
  raises_only_ValueError (reraise_ValueError e' c).
Proof.
  intros He' Hc. destruct c as [a|e0]; cbn [reraise_ValueError].
  - apply Ok_raises_only.
  - rewrite (Hc e0 eq_refl). now apply Raise_raises_only.
Qed.

(** Splits the conditionals of a definition and closes the branches that
    end in [Ok] or in a [ValueError]. *)
Ltac branches :=
  repeat match goal with
         | |- context [if ?c then _ else _] => destruct c
         end;
  try (apply Ok_raises_only);
  try (apply Raise_raises_only; reflexivity).

Lemma _parse_octet_raises_only o : raises_only_ValueError (_parse_octet o).
Proof. unfold _parse_octet. branches. Qed.

Lemma from_octets_raises_only octets acc :
  raises_only_ValueError (from_octets octets acc).
Proof.
  revert acc; induction octets as [|o octets IH]; intros acc; cbn [from_octets].
  - apply Ok_raises_only.
  - apply bind_raises_only; [apply _parse_octet_raises_only | intros b _; apply IH].
Qed.

Lemma v4_ip_int_from_string_raises_only s :
  raises_only_ValueError (v4_ip_int_from_string s).
Proof.
  unfold v4_ip_int_from_string.
  destruct (is_empty s); [now apply Raise_raises_only|].
  destruct (negb _); [now apply Raise_raises_only|].
  apply reraise_raises_only; [reflexivity | apply from_octets_raises_only].
Qed.

Lemma IPv4Address_raises_only s : raises_only_ValueError (IPv4Address s).
Proof.
  unfold IPv4Address. destruct (contains "/" s); [now apply Raise_raises_only|].
  apply v4_ip_int_from_string_raises_only.
Qed.

Lemma _prefix_from_ip_int_raises_only w ip :
  raises_only_ValueError (_prefix_from_ip_int w ip).
Proof. unfold _prefix_from_ip_int. branches. Qed.

Lemma _prefix_from_prefix_string_raises_only w str :
  raises_only_ValueError (_prefix_from_prefix_string w str).
Proof. unfold _prefix_from_prefix_string. branches. Qed.

Lemma _prefix_from_int_raises_only w n :
  raises_only_ValueError (_prefix_from_int w n).
Proof. unfold _prefix_from_int. branches. Qed.

Lemma v4_prefix_from_ip_string_raises_only str :
  raises_only_ValueError (v4_prefix_from_ip_string str).
Proof.
  unfold v4_prefix_from_ip_string.
  pose proof (v4_ip_int_from_string_raises_only str) as Hip.
  destruct (v4_ip_int_from_string str) as [ip|e0].
  - pose proof (_prefix_from_ip_int_raises_only IPV4LENGTH ip) as H.
    destruct (_prefix_from_ip_int IPV4LENGTH ip) as [p|e1]; [apply Ok_raises_only|].
    rewrite (H e1 eq_refl).
    apply reraise_raises_only; [reflexivity | apply _prefix_from_ip_int_raises_only].
  - specialize (Hip e0 eq_refl).
    destruct e0; try discriminate; now apply Raise_raises_only.
Qed.

Lemma v4_make_netmask_raises_only arg : raises_only_ValueError (v4_make_netmask arg).
Proof.
  unfold v4_make_netmask. apply bind_raises_only; [|intros; apply Ok_raises_only].
  destruct arg as [str|n]; [|apply _prefix_from_int_raises_only].
  pose proof (_prefix_from_prefix_string_raises_only IPV4LENGTH str) as H.
  destruct (_prefix_from_prefix_string IPV4LENGTH str) as [p|e0]; [exact H|].
  destruct e0; try exact H. apply v4_prefix_from_ip_string_raises_only.
Qed.

Lemma _split_addr_prefix_raises_only w address :
  raises_only_ValueError (_split_addr_prefix w address).
Proof.
  unfold _split_addr_prefix, _split_optional_netmask.
  pose proof (split_not_nil "/"%char address) as Hnil.
  destruct (split "/" address) as [|a [|m [|x rest]]]; [contradiction|..];
    cbn [List.length Nat.ltb Nat.leb bind];
    (apply Ok_raises_only || now apply Raise_raises_only).
Qed.

Lemma IPv4Network_raises_only address : raises_only_ValueError (IPv4Network address).
Proof.
  unfold IPv4Network.
  apply bind_raises_only; [apply _split_addr_prefix_raises_only|].
  intros [addr mask] _.
  apply bind_raises_only; [apply IPv4Address_raises_only|]. intros a _.
  apply bind_raises_only; [apply v4_make_netmask_raises_only|]. intros [m p] _.
  branches.
Qed.

Lemma _parse_hextet_raises_only h : raises_only_ValueError (_parse_hextet h).
Proof. unfold _parse_hextet, int16. branches. Qed.

Lemma parse_hextets_raises_only hextets acc :
  raises_only_ValueError (parse_hextets hextets acc).
Proof.
  revert acc; induction hextets as [|h hextets IH]; intros acc; cbn [parse_hextets].
  - apply Ok_raises_only.
  - apply bind_raises_only; [apply _parse_hextet_raises_only | intros b _; apply IH].
Qed.

Lemma find_skip_raises_only parts range skip_index :
  raises_only_ValueError (find_skip parts range skip_index).
Proof.
  revert skip_index; induction range as [|i range IH]; intros skip_index;
    cbn [find_skip].
  - apply Ok_raises_only.
  - destruct (is_empty _); [|apply IH].
    destruct skip_index; [now apply Raise_raises_only | apply IH].
Qed.

Lemma v6_ip_int_from_string_raises_only str :
  raises_only_ValueError (v6_ip_int_from_string str).
Proof.
  unfold v6_ip_int_from_string.
  destruct (is_empty str); [now apply Raise_raises_only|].
  destruct (_ <? _)%nat; [now apply Raise_raises_only|].
  apply bind_raises_only.
  { destruct (contains "." _); [|apply Ok_raises_only].
    apply bind_raises_only; [apply IPv4Address_raises_only|].
    intros; apply Ok_raises_only. }
  intros parts _.
  destruct (_ <? _)%nat; [now apply Raise_raises_only|].
  apply bind_raises_only; [apply find_skip_raises_only|]. intros skip_index _.
  apply bind_raises_only.
  { destruct skip_index as [k|].
    - apply bind_raises_only; [branches|]. intros parts_hi _.
      apply bind_raises_only; [branches|]. intros parts_lo _.
      branches.
    - branches. }
  intros [[parts_hi parts_lo] parts_skipped] _.
  apply reraise_raises_only; [reflexivity|].
  apply bind_raises_only; [apply parse_hextets_raises_only|].
  intros ip_int _. apply parse_hextets_raises_only.
Qed.

Lemma IPv6Address_raises_only str : raises_only_ValueError (IPv6Address str).
Proof.
  unfold IPv6Address. destruct (contains "/" str); [now apply Raise_raises_only|].
  apply bind_raises_only.
  - unfold _split_scope_id. destruct (partition "%" str) as [[addr sep] scope_id].
    branches.
  - intros [addr_str scope] _. apply v6_ip_int_from_string_raises_only.
Qed.

Lemma v6_make_netmask_raises_only arg : raises_only_ValueError (v6_make_netmask arg).
Proof.
  unfold v6_make_netmask. apply bind_raises_only; [|intros; apply Ok_raises_only].
  destruct arg; [apply _prefix_from_prefix_string_raises_only
                | apply _prefix_from_int_raises_only].
Qed.

Lemma IPv6Network_raises_only address : raises_only_ValueError (IPv6Network address).
Proof.
  unfold IPv6Network.
  apply bind_raises_only; [apply _split_addr_prefix_raises_only|].
  intros [addr mask] _.
  apply bind_raises_only; [apply IPv6Address_raises_only|]. intros a _.
  apply bind_raises_only; [apply v6_make_netmask_raises_only|]. intros [m p] _.
  branches.
Qed.

(** [validate_target] never raises: it answers true or false. *)
Lemma validate_target_returns target :
  validate_target target = Ok true \/ validate_target target = Ok false.
Proof.
  unfold validate_target.
  destruct (negb _); [now right|].
  destruct (contains ":" target).
  - pose proof (IPv6Network_raises_only target) as H.
    destruct (IPv6Network target) as [net|e]; [now left|].
    rewrite (H e eq_refl). now right.
  - pose proof (IPv4Network_raises_only target) as H.
    destruct (IPv4Network target) as [net|e]; [now left|].
    rewrite (H e eq_refl). now right.
Qed.

End OnlyValueErrors.

(** C9: a target [<address>/<len>] whose address has a bit set below the
    mask is not valid, in either address family: the network constructors
    apply the strict test. *)
Theorem host_bits_set_target_is_invalid (addr len : string) :
  (forall a m p,
     Ipaddress.IPv4Address addr = Ok a ->
     Ipaddress.v4_make_netmask (Ipaddress.MaskStr len) = Ok (m, p) ->
     host_bits_set 32 a p ->
     validate_target (addr ++ "/" ++ len) = Ok false)
  /\ (forall a m p,
        Ipaddress.IPv6Address addr = Ok a ->
        Ipaddress.v6_make_netmask (Ipaddress.MaskStr len) = Ok (m, p) ->
        host_bits_set 128 a p ->
        validate_target (addr ++ "/" ++ len) = Ok false).
Proof.
  split; intros a m p Haddr Hmask Hbits.
  - destruct (IPv4Address_chars _ _ Haddr) as [Hslash Hcolon].
    destruct (v4_make_netmask_Ok _ _ _ Hmask) as (-> & Hp & Hlslash & Hlcolon).
    unfold validate_target.
    rewrite !contains_app, Hslash, Hcolon, Hlcolon. cbn [PyStr.contains Ascii.eqb
      Bool.eqb orb negb andb].
    unfold Ipaddress.IPv4Network, Ipaddress._split_addr_prefix,
      Ipaddress._split_optional_netmask.
    rewrite (split_address_and_mask _ _ Hslash Hlslash).
    cbn [List.length Nat.ltb Nat.leb bind]. rewrite Haddr. cbn [bind].
    rewrite Hmask. cbn [bind].
    rewrite (host_bits_fail_strict_check 32 a p) by (tauto || lia).
    reflexivity.
  - destruct (IPv6Address_chars _ _ Haddr) as [Hslash Hcolon].
    destruct (v6_make_netmask_Ok _ _ _ Hmask) as (-> & Hp & Hlslash).
    unfold validate_target.
    rewrite !contains_app, Hslash, Hcolon. cbn [PyStr.contains Ascii.eqb
      Bool.eqb orb negb andb].
    unfold Ipaddress.IPv6Network, Ipaddress._split_addr_prefix,
      Ipaddress._split_optional_netmask.
    rewrite (split_address_and_mask _ _ Hslash Hlslash).
    cbn [List.length Nat.ltb Nat.leb bind]. rewrite Haddr. cbn [bind].
    rewrite Hmask. cbn [bind].
    rewrite (host_bits_fail_strict_check 128 a p) by (tauto || lia).
    reflexivity.
Qed.

Lemma host_bits_set_target_is_invalid_witness :
  Ipaddress.IPv4Address "193.0.14.129" = Ok 3238006401
  /\ Ipaddress.v4_make_netmask (Ipaddress.MaskStr "24") = Ok (4294967040, 24)
  /\ host_bits_set 32 3238006401 24
  /\ validate_target ("193.0.14.129" ++ "/" ++ "24") = Ok false.
Proof.
  assert (Hbits : host_bits_set 32 3238006401 24)
    by (exists 0; split; [lia | reflexivity]).
  split; [vm_compute; reflexivity|]. split; [vm_compute; reflexivity|].
  split; [exact Hbits|].
  apply (proj1 (host_bits_set_target_is_invalid "193.0.14.129" "24")
           3238006401 4294967040 24);
    [vm_compute; reflexivity | vm_compute; reflexivity | exact Hbits].
Defined.

(** C5: [validate_target] returns true only if, and whenever, the target
    contains a slash and the network constructor of the family chosen by
    the presence of a colon accepts it; the four targets of the
    specification come out as it says. *)
Theorem validate_target_accepts_networks_only (target : string) :
  (validate_target target = Ok true
   <-> PyStr.contains "/" target = true
       /\ ((PyStr.contains ":" target = true
            /\ exists net, Ipaddress.IPv6Network target = Ok net)
           \/ (PyStr.contains ":" target = false
               /\ exists net, Ipaddress.IPv4Network target = Ok net)))
  /\ validate_target "193.0.14.0/24" = Ok true
  /\ validate_target "2001:db8::/32" = Ok true
  /\ validate_target "193.0.14.0" = Ok false
  /\ validate_target "not-an-ip/24" = Ok false.
Proof.
  split; [|repeat split; vm_compute; reflexivity].
  unfold validate_target.
  destruct (PyStr.contains "/" target); cbn [negb].
  - destruct (PyStr.contains ":" target).
    + destruct (Ipaddress.IPv6Network target) as [net|e].
      * split; [intros _|reflexivity]. split; [reflexivity|]. left. eauto.
      * split.
        -- destruct (is_ValueError e); discriminate.
        -- intros [_ [[_ [net Hnet]]|[Hc _]]]; discriminate.
    + destruct (Ipaddress.IPv4Network target) as [net|e].
      * split; [intros _|reflexivity]. split; [reflexivity|]. right. eauto.
      * split.
        -- destruct (is_ValueError e); discriminate.
        -- intros [_ [[Hc _]|[_ [net Hnet]]]]; discriminate.
  - split; [discriminate|]. intros [H _]. discriminate.
Qed.

(** ** Runs of the main block *)

(** C1 does not hold of the code: when the request for one of the two
    timepoints is answered with a status other than 200,
    [ris_get_bgp_state] gives [None], and [ris_compare_aspaths] then
    raises a [TypeError] at [x['data']], whichever side the [None] is on;
    the run ends in that exception after the two requests. *)
Theorem missing_snapshot_raises_TypeError http_get target :
  (forall timestamp,
     status_code (http_get (bgp_state_url target timestamp)) <> 200 ->
     ris_get_bgp_state http_get target timestamp = Ok None)
  /\ (forall other,
        ris_compare_aspaths None other = Raise TypeError
        /\ ris_compare_aspaths other None = Raise TypeError)
  /\ (forall clk n last_dump then_res now_res,
        validate_target target = Ok true ->
        ris_get_last_dump_datetime n (today_dump clk) (now_dump clk) = Ok last_dump ->
        ris_get_bgp_state http_get target (ris_format_timestamp last_dump) = Ok then_res ->
        ris_get_bgp_state http_get target (ris_format_timestamp (now_main clk)) = Ok now_res ->
        status_code
          (http_get (bgp_state_url target (ris_format_timestamp last_dump))) <> 200
        \/ status_code
             (http_get (bgp_state_url target (ris_format_timestamp (now_main clk)))) <> 200 ->
        main clk http_get n target
        = ([HttpGet (bgp_state_url target (ris_format_timestamp last_dump));
            HttpGet (bgp_state_url target (ris_format_timestamp (now_main clk)))],
           Traceback TypeError)).
Proof.
  assert (Hnone : forall timestamp,
             status_code (http_get (bgp_state_url target timestamp)) <> 200 ->
             ris_get_bgp_state http_get target timestamp = Ok None).
  { intros timestamp Hstatus. rewrite ris_get_bgp_state_eq, RIPEstat__response_eq.
    apply Z.eqb_neq in Hstatus. rewrite Hstatus. reflexivity. }
  assert (Hraise : forall other,
             ris_compare_aspaths None other = Raise TypeError
             /\ ris_compare_aspaths other None = Raise TypeError).
  { intros other. split; [reflexivity | destruct other; reflexivity]. }
  split; [exact Hnone|]. split; [exact Hraise|].
  intros clk n last_dump then_res now_res Hvalid Hlast Hthen Hnow Hstatus.
  unfold main. rewrite Hvalid, Hlast, Hthen, Hnow.
  destruct Hstatus as [Hs|Hs]; apply Hnone in Hs.
  - rewrite Hs in Hthen. injection Hthen as <-.
    rewrite (proj1 (Hraise now_res)). reflexivity.
  - rewrite Hs in Hnow. injection Hnow as <-.
    rewrite (proj2 (Hraise then_res)). reflexivity.
Qed.

Lemma missing_snapshot_raises_TypeError_witness :
  status_code {| status_code := 503; json := Ok None |} <> 200
  /\ ris_get_bgp_state (fun _ => {| status_code := 503; json := Ok None |})
       "193.0.14.0/24" "2024-03-01T08:00" = Ok None.
Proof.
  split; [cbn; lia|].
  apply (missing_snapshot_raises_TypeError
           (fun _ => {| status_code := 503; json := Ok None |}) "193.0.14.0/24").
  cbn; lia.
Defined.

(** C6: target validation answers false or true.  When it is false the
    run prints the help text to standard error and exits with code 1
    without having sent a request; when it is true and the run reaches
    its end, the exit code is 0, also when the comparison printed
    nothing. *)
Theorem main_exit_codes clk http_get n target :
  (validate_target target = Ok false \/ validate_target target = Ok true)
  /\ (validate_target target = Ok false ->
      main clk http_get n target = ([PrintHelpStderr], Exit 1)
      /\ existsb is_HttpGet (fst (main clk http_get n target)) = false)
  /\ (validate_target target = Ok true ->
      forall events code,
        main clk http_get n target = (events, Exit code) -> code = 0)
  /\ (validate_target target = Ok true ->
      forall last_dump then_res now_res,
        ris_get_last_dump_datetime n (today_dump clk) (now_dump clk) = Ok last_dump ->
        ris_get_bgp_state http_get target (ris_format_timestamp last_dump) = Ok then_res ->
        ris_get_bgp_state http_get target (ris_format_timestamp (now_main clk)) = Ok now_res ->
        ris_compare_aspaths then_res now_res = Ok [] ->
        main clk http_get n target
        = ([HttpGet (bgp_state_url target (ris_format_timestamp last_dump));
            HttpGet (bgp_state_url target (ris_format_timestamp (now_main clk)))],
           Exit 0)).
Proof.
  split; [destruct (validate_target_returns target); auto|].
  unfold main. split; [|split].
  - intros ->. split; reflexivity.
  - intros -> events code.
    destruct (ris_get_last_dump_datetime _ _ _); [|discriminate].
    destruct (ris_get_bgp_state _ _ _); [|discriminate].
    destruct (ris_get_bgp_state _ _ _); [|discriminate].
    destruct (ris_compare_aspaths _ _); [|discriminate].
    now intros [= _ <-].
  - intros -> last_dump then_res now_res -> -> -> ->. reflexivity.
Qed.

Lemma main_exit_codes_witness :
  (validate_target "193.0.14.0" = Ok false
   /\ main {| now_main := 739000 * US_PER_DAY + 10 * US_PER_HOUR;
              today_dump := 739000;
              now_dump := 739000 * US_PER_DAY + 10 * US_PER_HOUR |}
        (fun _ => {| status_code := 200; json := Ok None |}) 3 "193.0.14.0"
      = ([PrintHelpStderr], Exit 1))
  /\ (validate_target "193.0.14.0/24" = Ok true
      /\ exists events,
           main {| now_main := 739000 * US_PER_DAY + 10 * US_PER_HOUR;
                   today_dump := 739000;
                   now_dump := 739000 * US_PER_DAY + 10 * US_PER_HOUR |}
             (fun _ => {| status_code := 200;
                          json := Ok (Some {| data_bgp_state := [] |}) |})
             3 "193.0.14.0/24"
           = (events, Exit 0)).
Proof.
  split.
  - split; [vm_compute; reflexivity|].
    apply (main_exit_codes
             {| now_main := 739000 * US_PER_DAY + 10 * US_PER_HOUR;
                today_dump := 739000;
                now_dump := 739000 * US_PER_DAY + 10 * US_PER_HOUR |}
             (fun _ => {| status_code := 200; json := Ok None |}) 3 "193.0.14.0").
    vm_compute; reflexivity.
  - split; [vm_compute; reflexivity|].
    eexists.
    eapply (proj2 (proj2 (proj2
              (main_exit_codes
                 {| now_main := 739000 * US_PER_DAY + 10 * US_PER_HOUR;
                    today_dump := 739000;
                    now_dump := 739000 * US_PER_DAY + 10 * US_PER_HOUR |}
                 (fun _ => {| status_code := 200;
                              json := Ok (Some {| data_bgp_state := [] |}) |})
                 3 "193.0.14.0/24"))));
      vm_compute; reflexivity.
Defined.

(** * Further properties of the script *)

(** ** Which timestamp the lookup picks *)

(** Writes the time constants out as numbers of microseconds. *)
Ltac microseconds :=
  unfold target_dt, date_of, datetime_of_date, US_PER_DAY, US_PER_HOUR in *;
  change (8 * 3600000000) with 28800000000 in *;
  change (24 * 3600000000) with 86400000000 in *.

(** The bounds of a quotient by the eight hours of a slot. *)
Ltac slot_bounds q :=
  match goal with
  | q := ?a / 28800000000 |- _ =>
      let H := fresh "Hq" in
      assert (H : 28800000000 * q <= a < 28800000000 * q + 28800000000)
        by (subst q; pose proof (Z.div_mod a 28800000000 ltac:(lia));
            pose proof (Z.mod_pos_bound a 28800000000 ltac:(lia)); lia)
  end.

(** X1: for a count that [float] takes, the candidates are exactly the
    00:00, 08:00 and 16:00 of today and of the [n - 1] days after it, as
    far as these days are not after 9999-12-31; for any other count the
    function raises [OverflowError]. *)
Theorem dump_times_cover_n_days_from_today n today :
  (fits_float n = true ->
   exists times,
     ris_get_dump_times n today = Ok times
     /\ forall t,
          In t times
          <-> exists d k, 0 <= d < n /\ today + d < MAXORDINAL /\ 0 <= k < 3
                          /\ t = datetime_of_date (today + d) + k * (8 * US_PER_HOUR))
  /\ (fits_float n = false -> ris_get_dump_times n today = Raise OverflowError).
Proof.
  rewrite ris_get_dump_times_eq. split; intros ->; [|reflexivity].
  exists (candidates n today). split; [reflexivity|].
  intros t. rewrite candidate_iff. unfold MAXORDINAL. microseconds. split.
  - intros (i & Hi & Hcap & ->). exists (i / 3), (i mod 3).
    pose proof (Z.div_mod i 3 ltac:(lia)).
    pose proof (Z.mod_pos_bound i 3 ltac:(lia)). repeat split; lia.
  - intros (d & k & Hd & Hcap & Hk & ->). exists (3 * d + k). repeat split; lia.
Qed.

Lemma dump_times_cover_n_days_from_today_witness :
  fits_float 2 = true
  /\ exists times,
       ris_get_dump_times 2 739000 = Ok times
       /\ In (datetime_of_date 739001 + 2 * (8 * US_PER_HOUR)) times.
Proof.
  assert (Hfits : fits_float 2 = true) by reflexivity.
  split; [exact Hfits|].
  destruct (proj1 (dump_times_cover_n_days_from_today 2 739000) Hfits)
    as (times & Htimes & Hin).
  exists times. split; [exact Htimes|].
  apply Hin. exists 1, 2. unfold MAXORDINAL. repeat split; lia.
Defined.

(** X2: for [n >= 1] and a clock reading of today, the timestamp
    returned is today's midnight plus a whole number of eight-hour slots,
    at most two: the number of slots from midnight up to
    [now - n * 8 hours], plus one, and zero when that is negative.  When
    [now - n * 8 hours] is before the year 1 the function raises
    [OverflowError] instead. *)
Theorem last_dump_closed_form n today now :
  1 <= n -> is_datetime now = true -> date_of now = today ->
  (0 <= target_dt n now ->
   exists k,
     k = Z.max 0 ((target_dt n now - datetime_of_date today) / (8 * US_PER_HOUR) + 1)
     /\ 0 <= k <= 2
     /\ ris_get_last_dump_datetime n today now
        = Ok (datetime_of_date today + k * (8 * US_PER_HOUR)))
  /\ (target_dt n now < 0 ->
      ris_get_last_dump_datetime n today now = Raise OverflowError).
Proof.
  intros Hn Hnow Hday. split; [|now apply lookup_overflow].
  intros Htarget. eexists. split; [reflexivity|]. split.
  - apply date_of_bounds in Hday. clear Htarget. microseconds.
    set (q := (now - n * 28800000000 - today * 86400000000) / 28800000000).
    slot_bounds q. lia.
  - destruct (lookup_returns n today now Hn Hnow Hday Htarget) as [t Ht].
    rewrite Ht. f_equal. now apply lookup_closed_form.
Qed.

Lemma last_dump_closed_form_witness :
  1 <= 1 /\ is_datetime (739000 * US_PER_DAY + 20 * US_PER_HOUR) = true
  /\ date_of (739000 * US_PER_DAY + 20 * US_PER_HOUR) = 739000
  /\ 0 <= target_dt 1 (739000 * US_PER_DAY + 20 * US_PER_HOUR)
  /\ exists k,
       k = Z.max 0 ((target_dt 1 (739000 * US_PER_DAY + 20 * US_PER_HOUR)
                     - datetime_of_date 739000) / (8 * US_PER_HOUR) + 1)
       /\ 0 <= k <= 2
       /\ ris_get_last_dump_datetime 1 739000 (739000 * US_PER_DAY + 20 * US_PER_HOUR)
          = Ok (datetime_of_date 739000 + k * (8 * US_PER_HOUR)).
Proof.
  assert (Hn : 1 <= 1) by lia.
  assert (Hnow : is_datetime (739000 * US_PER_DAY + 20 * US_PER_HOUR) = true)
    by reflexivity.
  assert (Hday : date_of (739000 * US_PER_DAY + 20 * US_PER_HOUR) = 739000)
    by reflexivity.
  assert (Htarget : 0 <= target_dt 1 (739000 * US_PER_DAY + 20 * US_PER_HOUR))
    by (unfold target_dt, US_PER_DAY, US_PER_HOUR; lia).
  repeat (split; [assumption|]).
  exact (proj1 (last_dump_closed_form 1 739000 (739000 * US_PER_DAY + 20 * US_PER_HOUR)
                  Hn Hnow Hday) Htarget).
Defined.

(** X3: for [n >= 1] the timestamp returned is never before today's
    midnight and never after [now]: however far back [n] reaches, the
    snapshot asked for is one of today. *)
Theorem last_dump_is_of_today n today now t :
  1 <= n -> date_of now = today ->
  ris_get_last_dump_datetime n today now = Ok t ->
  datetime_of_date today <= t <= now /\ date_of t = today.
Proof.
  intros Hn Hday Ht. rewrite (lookup_closed_form n today now t Hn Hday Ht).
  apply date_of_bounds in Hday. microseconds.
  set (q := (now - n * 28800000000 - today * 86400000000) / 28800000000).
  slot_bounds q.
  assert (Hrange : today * 86400000000
                   <= today * 86400000000 + Z.max 0 (q + 1) * 28800000000 <= now)
    by lia.
  split; [exact Hrange|].
  symmetry. apply Z.div_unique with (r := Z.max 0 (q + 1) * 28800000000); lia.
Qed.

Lemma last_dump_is_of_today_witness :
  1 <= 5 /\ date_of (739000 * US_PER_DAY + 20 * US_PER_HOUR) = 739000
  /\ ris_get_last_dump_datetime 5 739000 (739000 * US_PER_DAY + 20 * US_PER_HOUR)
     = Ok (739000 * US_PER_DAY)
  /\ datetime_of_date 739000 <= 739000 * US_PER_DAY
     <= 739000 * US_PER_DAY + 20 * US_PER_HOUR.
Proof.
  split; [lia|]. split; [reflexivity|]. split; [vm_compute; reflexivity|].
  apply (last_dump_is_of_today 5 739000 (739000 * US_PER_DAY + 20 * US_PER_HOUR)
           (739000 * US_PER_DAY)); [lia | reflexivity | vm_compute; reflexivity].
Defined.

(** X4: with a lookback count of three or more, the default included,
    a timestamp returned is today's midnight whatever the time of day
    and whatever the count; and one is returned whenever
    [now - n * 8 hours] is not before the year 1. *)
Theorem three_or_more_dumps_back_is_midnight n today now :
  3 <= n -> date_of now = today ->
  (forall t, ris_get_last_dump_datetime n today now = Ok t -> t = datetime_of_date today)
  /\ (is_datetime now = true -> 0 <= target_dt n now ->
      ris_get_last_dump_datetime n today now = Ok (datetime_of_date today)).
Proof.
  intros Hn Hday.
  assert (Hmidnight : forall t, ris_get_last_dump_datetime n today now = Ok t ->
                                t = datetime_of_date today).
  { intros t Ht. rewrite (lookup_closed_form n today now t ltac:(lia) Hday Ht).
    apply date_of_bounds in Hday. microseconds.
    assert (Hq : (now - n * 28800000000 - today * 86400000000) / 28800000000 < 0)
      by (apply Z.div_lt_upper_bound; lia).
    lia. }
  split; [exact Hmidnight|]. intros Hnow Htarget.
  destruct (lookup_returns n today now ltac:(lia) Hnow Hday Htarget) as [t Ht].
  rewrite Ht. f_equal. now apply Hmidnight.
Qed.

Lemma three_or_more_dumps_back_is_midnight_witness :
  3 <= RIPE_RIS_DEFAULT_N_DUMPS_BACK
  /\ date_of (739000 * US_PER_DAY + 23 * US_PER_HOUR) = 739000
  /\ is_datetime (739000 * US_PER_DAY + 23 * US_PER_HOUR) = true
  /\ 0 <= target_dt RIPE_RIS_DEFAULT_N_DUMPS_BACK (739000 * US_PER_DAY + 23 * US_PER_HOUR)
  /\ ris_get_last_dump_datetime RIPE_RIS_DEFAULT_N_DUMPS_BACK 739000
       (739000 * US_PER_DAY + 23 * US_PER_HOUR)
     = Ok (datetime_of_date 739000).
Proof.
  assert (Hn : 3 <= RIPE_RIS_DEFAULT_N_DUMPS_BACK)
    by (unfold RIPE_RIS_DEFAULT_N_DUMPS_BACK; lia).
  assert (Hday : date_of (739000 * US_PER_DAY + 23 * US_PER_HOUR) = 739000)
    by reflexivity.
  assert (Hnow : is_datetime (739000 * US_PER_DAY + 23 * US_PER_HOUR) = true)
    by reflexivity.
  assert (Htarget : 0 <= target_dt RIPE_RIS_DEFAULT_N_DUMPS_BACK
                           (739000 * US_PER_DAY + 23 * US_PER_HOUR))
    by (unfold target_dt, RIPE_RIS_DEFAULT_N_DUMPS_BACK, US_PER_DAY, US_PER_HOUR; lia).
  repeat (split; [assumption|]).
  exact (proj2 (three_or_more_dumps_back_is_midnight RIPE_RIS_DEFAULT_N_DUMPS_BACK 739000
                  (739000 * US_PER_DAY + 23 * US_PER_HOUR) Hn Hday) Hnow Htarget).
Defined.

(** X5: with a lookback count of one, the timestamp returned is the
    latest dump time of today at or before [now]: it is on the eight-hour
    grid and [now] is less than eight hours after it. *)
Theorem one_dump_back_is_latest_dump today now t :
  date_of now = today ->
  ris_get_last_dump_datetime 1 today now = Ok t ->
  t <= now < t + 8 * US_PER_HOUR
  /\ exists k, 0 <= k < 3 /\ t = datetime_of_date today + k * (8 * US_PER_HOUR).
Proof.
  intros Hday Ht. rewrite (lookup_closed_form 1 today now t ltac:(lia) Hday Ht).
  apply date_of_bounds in Hday. microseconds.
  set (q := (now - 1 * 28800000000 - today * 86400000000) / 28800000000).
  slot_bounds q.
  split; [lia|]. exists (Z.max 0 (q + 1)). split; [lia | reflexivity].
Qed.

Lemma one_dump_back_is_latest_dump_witness :
  date_of (739000 * US_PER_DAY + 20 * US_PER_HOUR) = 739000
  /\ ris_get_last_dump_datetime 1 739000 (739000 * US_PER_DAY + 20 * US_PER_HOUR)
     = Ok (739000 * US_PER_DAY + 16 * US_PER_HOUR)
  /\ 739000 * US_PER_DAY + 16 * US_PER_HOUR <= 739000 * US_PER_DAY + 20 * US_PER_HOUR
     < 739000 * US_PER_DAY + 16 * US_PER_HOUR + 8 * US_PER_HOUR.
Proof.
  split; [reflexivity|]. split; [vm_compute; reflexivity|].
  apply (one_dump_back_is_latest_dump 739000 (739000 * US_PER_DAY + 20 * US_PER_HOUR)
           (739000 * US_PER_DAY + 16 * US_PER_HOUR));
    [reflexivity | vm_compute; reflexivity].
Defined.

(** ** What the comparison prints *)

Section ReportFacts.

Lemma is_key_In keys k : is_key keys k = true <-> In k keys.
Proof.
  unfold is_key. rewrite existsb_exists. split.
  - intros (k' & Hin & Heq). apply String.eqb_eq in Heq. now subst.
  - intros Hin. exists k. split; [assumption | apply String.eqb_refl].
Qed.

Lemma filter_twice {A : Type} (f g : A -> bool) l :
  filter f (filter g l) = filter (fun x => g x && f x) l.
Proof.
  induction l as [|x l IH]; cbn [filter]; [reflexivity|].
  destruct (g x); cbn [filter andb]; [destruct (f x)|]; now rewrite IH.
Qed.

(** An assignment keeps the keys, or adds the new key at the end. *)
Lemma set_keys {V : Type} k (v : V) d :
  map fst (Dict.set k v d)
  = if is_key (map fst d) k then map fst d else map fst d ++ [k].
Proof.
  induction d as [|[k' v'] d IH]; cbn [Dict.set map fst]; [reflexivity|].
  unfold is_key in *. cbn [existsb].
  destruct (String.eqb k' k); cbn [orb map fst]; [reflexivity|].
  rewrite IH. destruct (existsb _ (map fst d)); reflexivity.
Qed.

(** The keys after the collecting loop: the old ones, then the new
    source-ids in the order in which they first occur. *)
Lemma collect_paths_keys states paths :
  map fst (collect_paths states paths)
  = map fst paths
    ++ filter (fun k => negb (is_key (map fst paths) k))
         (first_occurrences (map source_id states)).
Proof.
  revert paths; induction states as [|st states IH]; intros paths.
  - cbn. now rewrite app_nil_r.
  - cbn [collect_paths map first_occurrences filter]. rewrite IH, set_keys.
    destruct (is_key (map fst paths) (source_id st)) eqn:Hkey; cbn [negb].
    + f_equal. rewrite filter_twice. apply filter_ext_in. intros y _.
      destruct (String.eqb (source_id st) y) eqn:E; cbn [negb andb]; [|reflexivity].
      apply String.eqb_eq in E. subst y. now rewrite Hkey.
    + rewrite <- app_assoc. cbn [app]. do 2 f_equal.
      rewrite filter_twice. apply filter_ext. intros y.
      unfold is_key. rewrite existsb_app. cbn [existsb].
      rewrite orb_false_r, negb_orb. apply andb_comm.
Qed.

(** The reporting loop as a map over the keys, when every item holds the
    value [g] gives for its key. *)
Lemma report_changes_flat_map items now_paths (g : string -> option (list Z)) :
  (forall k p, In (k, p) items -> g k = Some p) ->
  report_changes items now_paths
  = flat_map (fun sid =>
                match g sid, Dict.get sid now_paths with
                | Some p, Some q =>
                    if lists_equal p q then [] else [(sid, format_change p q)]
                | _, _ => []
                end) (map fst items).
Proof.
  induction items as [|[k p] items IH]; intros Hg; [reflexivity|].
  cbn [report_changes map fst flat_map].
  rewrite (Hg k p) by (now left). rewrite IH by (intros; apply Hg; now right).
  destruct (Dict.get k now_paths); [|reflexivity].
  destruct (lists_equal p l); reflexivity.
Qed.

(** The whole output of a comparison of two documents. *)
Lemma compare_documents_eq then_states now_states :
  ris_compare_aspaths_by_source
    (Some {| data_bgp_state := then_states |})
    (Some {| data_bgp_state := now_states |})
  = Ok (flat_map (change_of then_states now_states)
          (first_occurrences (map source_id then_states))).
Proof.
  unfold ris_compare_aspaths_by_source. cbn [get_bgp_state data_bgp_state bind].
  f_equal. unfold Dict.items.
  rewrite (report_changes_flat_map _ _ (fun sid => recorded_path sid then_states)).
  - rewrite collect_paths_keys. cbn [Dict.empty map app].
    rewrite (filter_ext _ (fun _ => true)) by reflexivity.
    assert (Hall : forall l : list string, filter (fun _ => true) l = l)
      by (induction l as [|x l IHl]; cbn; [|rewrite IHl]; reflexivity).
    rewrite Hall. apply flat_map_ext. intros sid. unfold change_of.
    rewrite collect_paths_get. cbn [Dict.get Dict.empty].
    destruct (recorded_path sid then_states); [|reflexivity].
    destruct (recorded_path sid now_states); reflexivity.
  - intros k p Hin. apply In_items_get in Hin.
    + rewrite collect_paths_get in Hin.
      destruct (recorded_path k then_states); [assumption | discriminate].
    + apply collect_paths_NoDup. constructor.
Qed.

Lemma first_occurrences_In l x : In x (first_occurrences l) <-> In x l.
Proof.
  induction l as [|y l IH]; cbn [first_occurrences In]; [reflexivity|].
  rewrite filter_In, IH. destruct (String.eqb y x) eqn:E.
  - apply String.eqb_eq in E. subst. intuition discriminate.
  - apply String.eqb_neq in E. cbn [negb]. intuition.
Qed.

Lemma first_occurrences_NoDup l : NoDup (first_occurrences l).
Proof.
  induction l as [|y l IH]; cbn [first_occurrences]; constructor.
  - rewrite filter_In, String.eqb_refl. intros [_ H]. discriminate.
  - now apply NoDup_filter.
Qed.

Lemma change_of_source then_states now_states sid x :
  In x (change_of then_states now_states sid) -> fst x = sid.
Proof.
  unfold change_of.
  destruct (recorded_path sid then_states); [|intros []].
  destruct (recorded_path sid now_states); [|intros []].
  destruct (lists_equal l l0); [intros [] | intros [<-|[]]; reflexivity].
Qed.

Lemma change_of_at_most_one then_states now_states sid :
  (List.length (change_of then_states now_states sid) <= 1)%nat.
Proof.
  unfold change_of.
  destruct (recorded_path sid then_states); [|cbn; lia].
  destruct (recorded_path sid now_states); [|cbn; lia].
  destruct (lists_equal l l0); cbn; lia.
Qed.

(** The comparison prints nothing exactly when no source has different
    paths in the two documents. *)
Lemma compare_prints_nothing_iff then_states now_states :
  ris_compare_aspaths
    (Some {| data_bgp_state := then_states |})
    (Some {| data_bgp_state := now_states |}) = Ok []
  <-> forall sid p q,
        recorded_path sid then_states = Some p ->
        recorded_path sid now_states = Some q -> p = q.
Proof.
  destruct (compare_documents then_states now_states) as (changes & Hrun & Hin).
  unfold ris_compare_aspaths. rewrite Hrun. cbn [bind]. split.
  - intros [= Hnil]. destruct changes as [|c changes]; [|discriminate].
    intros sid p q Hp Hq. destruct (lists_equal p q) eqn:E;
      [now apply lists_equal_iff|].
    apply lists_equal_false_iff in E. exfalso.
    apply (proj2 (Hin sid (format_change p q))). exists p, q. auto.
  - intros Hsame. destruct changes as [|[sid line] changes]; [reflexivity|].
    exfalso. destruct (proj1 (Hin sid line)) as (p & q & Hp & Hq & Hne & _);
      [now left|].
    apply Hne. now apply (Hsame sid).
Qed.

Lemma changes_NoDup then_states now_states changes :
  ris_compare_aspaths_by_source
    (Some {| data_bgp_state := then_states |})
    (Some {| data_bgp_state := now_states |}) = Ok changes ->
  NoDup (map fst changes).
Proof.
  rewrite compare_documents_eq. intros [= <-].
  pose proof (first_occurrences_NoDup (map source_id then_states)) as Hnd.
  induction (first_occurrences (map source_id then_states)) as [|sid sids IH];
    [constructor|].
  inversion Hnd as [|? ? Hnotin Hnd']; subst. cbn [flat_map]. rewrite map_app.
  pose proof (change_of_at_most_one then_states now_states sid) as Hlen.
  pose proof (change_of_source then_states now_states sid) as Hsrc.
  destruct (change_of then_states now_states sid) as [|x [|y rest]];
    [now apply IH | | cbn in Hlen; lia].
  cbn [map app]. constructor; [|now apply IH].
  rewrite (Hsrc x) by (now left). rewrite in_map_iff.
  intros ([sid' line] & Hfst & Hin). cbn in Hfst. subst sid'.
  apply in_flat_map in Hin as (sid' & Hin' & Hx).
  apply change_of_source in Hx. cbn in Hx. now subst sid'.
Qed.

End ReportFacts.

(** X6: the comparison of two documents prints one line for each source
    with a path in both that differ, in the order in which the sources
    first occur in the [then] document; a source that occurs several
    times in a document counts with the path of its last record. *)
Theorem output_follows_first_occurrence_in_then then_states now_states :
  ris_compare_aspaths_by_source
    (Some {| data_bgp_state := then_states |})
    (Some {| data_bgp_state := now_states |})
  = Ok (flat_map (change_of then_states now_states)
          (first_occurrences (map source_id then_states)))
  /\ ris_compare_aspaths
       (Some {| data_bgp_state := then_states |})
       (Some {| data_bgp_state := now_states |})
     = Ok (map snd (flat_map (change_of then_states now_states)
                      (first_occurrences (map source_id then_states)))).
Proof.
  split; [apply compare_documents_eq|].
  unfold ris_compare_aspaths. rewrite compare_documents_eq. reflexivity.
Qed.

(** X7: no source-id gets more than one output line, however often it
    occurs in the two snapshots. *)
Theorem no_source_is_reported_twice then_ now_ changes :
  ris_compare_aspaths_by_source then_ now_ = Ok changes ->
  NoDup (map fst changes).
Proof.
  destruct then_ as [[then_states]|]; [|discriminate].
  destruct now_ as [[now_states]|]; [|discriminate].
  apply changes_NoDup.
Qed.

Lemma no_source_is_reported_twice_witness :
  NoDup (map fst [("1"%string, format_change [100; 200; 300] [100; 250; 300])]).
Proof.
  apply (no_source_is_reported_twice
           (Some {| data_bgp_state := [ {| source_id := "1"; path := [1] |};
                                        {| source_id := "1"; path := [100; 200; 300] |} ] |})
           (Some {| data_bgp_state := [ {| source_id := "1"; path := [100; 250; 300] |};
                                        {| source_id := "1"; path := [100; 250; 300] |} ] |})).
  reflexivity.
Defined.

(** X8: the comparison of two documents prints nothing exactly when
    every source with a path in both has the same path in both. *)
Theorem prints_nothing_iff_no_shared_path_differs then_states now_states :
  (ris_compare_aspaths
     (Some {| data_bgp_state := then_states |})
     (Some {| data_bgp_state := now_states |}) = Ok []
   <-> forall sid p q,
         recorded_path sid then_states = Some p ->
         recorded_path sid now_states = Some q -> p = q)
  /\ (ris_compare_aspaths
        (Some {| data_bgp_state := then_states |})
        (Some {| data_bgp_state := now_states |}) = Ok []
      <-> ris_compare_aspaths_by_source
            (Some {| data_bgp_state := then_states |})
            (Some {| data_bgp_state := now_states |}) = Ok []).
Proof.
  split; [apply compare_prints_nothing_iff|].
  unfold ris_compare_aspaths.
  destruct (ris_compare_aspaths_by_source _ _) as [changes|e]; cbn [bind].
  - destruct changes; split; intros H; (reflexivity || discriminate H).
  - split; intros H; discriminate H.
Qed.

(** X9: a document compared with itself prints nothing, and so does a
    comparison in which one document has no records at all; unlike
    [None], an empty document does not make the comparison raise. *)
Theorem same_or_empty_document_prints_nothing states :
  ris_compare_aspaths
    (Some {| data_bgp_state := states |}) (Some {| data_bgp_state := states |}) = Ok []
  /\ ris_compare_aspaths
       (Some {| data_bgp_state := [] |}) (Some {| data_bgp_state := states |}) = Ok []
  /\ ris_compare_aspaths
       (Some {| data_bgp_state := states |}) (Some {| data_bgp_state := [] |}) = Ok [].
Proof.
  repeat split; apply compare_prints_nothing_iff; intros sid p q Hp Hq;
    cbn in Hp, Hq; congruence.
Qed.

(** X10: the sources that get a line are the same whichever of the two
    documents is passed as [then]. *)
Theorem reported_sources_do_not_depend_on_direction a_states b_states :
  exists forth back,
    ris_compare_aspaths_by_source
      (Some {| data_bgp_state := a_states |}) (Some {| data_bgp_state := b_states |})
    = Ok forth
    /\ ris_compare_aspaths_by_source
         (Some {| data_bgp_state := b_states |}) (Some {| data_bgp_state := a_states |})
       = Ok back
    /\ (forall sid, In sid (map fst forth) <-> In sid (map fst back))
    /\ List.length forth = List.length back.
Proof.
  destruct (compare_documents a_states b_states) as (forth & Hforth & Hin).
  destruct (compare_documents b_states a_states) as (back & Hback & Hin').
  exists forth, back. split; [exact Hforth|]. split; [exact Hback|].
  assert (Hsame : forall sid, In sid (map fst forth) <-> In sid (map fst back)).
  { intros sid. rewrite !in_map_iff. split.
    - intros ([sid' line] & Hfst & Hx). cbn in Hfst. subst sid'.
      apply Hin in Hx as (p & q & Hp & Hq & Hne & _).
      exists (sid, format_change q p). split; [reflexivity|].
      apply Hin'. exists q, p. auto.
    - intros ([sid' line] & Hfst & Hx). cbn in Hfst. subst sid'.
      apply Hin' in Hx as (p & q & Hp & Hq & Hne & _).
      exists (sid, format_change q p). split; [reflexivity|].
      apply Hin. exists q, p. auto. }
  split; [exact Hsame|].
  rewrite <- (length_map fst forth), <- (length_map fst back).
  apply Nat.le_antisymm; apply NoDup_incl_length;
    try (intros sid; apply Hsame); eapply changes_NoDup; eassumption.
Qed.

(** ** Text: output lines, URLs, timestamps *)

Section TextFacts.

Lemma length_append (a b : string) :
  String.length (a ++ b)%string = (String.length a + String.length b)%nat.
Proof. induction a as [|c a IH]; cbn; [reflexivity | now rewrite IH]. Qed.

Lemma append_assoc (a b c : string) :
  ((a ++ b) ++ c)%string = (a ++ (b ++ c))%string.
Proof. induction a as [|x a IH]; cbn; [reflexivity | now rewrite IH]. Qed.

Lemma length_repeat_char c n : String.length (Fmt.repeat_char c n) = n.
Proof. induction n as [|n IH]; cbn; [reflexivity | now rewrite IH]. Qed.

(** A right-justified field is as wide as asked for, or as wide as the
    text when that is longer. *)
Lemma length_rjust c w str :
  String.length (Fmt.rjust c w str) = Nat.max w (String.length str).
Proof. unfold Fmt.rjust. rewrite length_append, length_repeat_char. lia. Qed.

Lemma add_params_eq params params_str :
  add_params params params_str
  = (params_str
     ++ String.concat ""
          (map (fun kv => "&" ++ fst kv ++ "=" ++ snd kv) params))%string.
Proof.
  revert params_str; induction params as [|[k v] params IH]; intros params_str.
  - cbn. induction params_str as [|c p IHp]; cbn; [reflexivity | now rewrite <- IHp].
  - cbn [add_params map fst snd]. rewrite IH.
    assert (Hconcat : forall x l, String.concat "" (x :: l) = (x ++ String.concat "" l)%string).
    { intros x [|y l]; cbn [String.concat]; [|reflexivity].
      induction x as [|c x IHx]; cbn; [reflexivity | now rewrite <- IHx]. }
    rewrite Hconcat, !append_assoc. reflexivity.
Qed.

Lemma all_below_spec f n z :
  all_below f n = true -> 0 <= z < Z.of_nat n -> f z = true.
Proof.
  induction n as [|n IH]; cbn [all_below]; intros Hall Hz; [lia|].
  apply andb_true_iff in Hall as [Hn Hall].
  destruct (Z.eq_dec z (Z.of_nat n)) as [->|Hne]; [assumption|].
  apply IH; [assumption | lia].
Qed.

(** A number below 100 fills a two-character field; a year from 1000 to
    9999 is written with four digits, an earlier one with fewer. *)
Lemma two_digits z :
  0 <= z < 100 -> String.length (Fmt.rjust "0" 2 (Fmt.str_int z)) = 2%nat.
Proof.
  intros Hz. apply Nat.eqb_eq.
  apply (all_below_spec
           (fun z => (String.length (Fmt.rjust "0" 2 (Fmt.str_int z)) =? 2)%nat)
           (Z.to_nat 100));
    [vm_compute; reflexivity | rewrite Z2Nat.id; lia].
Qed.

Lemma year_four_digits y :
  1000 <= y <= 9999 -> String.length (Fmt.str_int y) = 4%nat.
Proof.
  intros Hy.
  pose proof (all_below_spec
                (fun z => (z <? 1000) || (String.length (Fmt.str_int z) =? 4)%nat)
                (Z.to_nat 10000) y) as H.
  rewrite Z2Nat.id in H by lia. specialize (H ltac:(vm_compute; reflexivity) ltac:(lia)).
  apply orb_true_iff in H as [H|H]; [apply Z.ltb_lt in H; lia | now apply Nat.eqb_eq].
Qed.

Lemma year_fewer_digits y :
  1 <= y <= 999 -> (String.length (Fmt.str_int y) <= 3)%nat.
Proof.
  intros Hy.
  pose proof (all_below_spec
                (fun z => (String.length (Fmt.str_int z) <=? 3)%nat)
                (Z.to_nat 1000) y) as H.
  rewrite Z2Nat.id in H by lia. specialize (H ltac:(vm_compute; reflexivity) ltac:(lia)).
  now apply Nat.leb_le.
Qed.

(** The calendar fields of a day number: months and days are in range,
    so is the year for the days [datetime] can hold, and the year 1000
    begins with day 364877. *)
Lemma civil_of_days_range days :
  let '(y, m, d) := Fmt.civil_of_days days in
  1 <= m <= 12 /\ 1 <= d <= 31
  /\ (0 <= days < 3652059 -> 1 <= y <= 9999 /\ (1000 <= y <-> 364877 <= days)).
Proof.
  unfold Fmt.civil_of_days.
  set (z := days + 306).
  set (era := z / 146097).
  set (doe := z mod 146097).
  set (yoe := (doe - doe / 1460 + doe / 36524 - doe / 146096) / 365).
  set (doy := doe - (365 * yoe + yoe / 4 - yoe / 100)).
  assert (Hz : z = 146097 * era + doe)
    by (subst era doe; apply Z.div_mod; lia).
  assert (Hdoe : 0 <= doe < 146097) by (subst doe; apply Z.mod_pos_bound; lia).
  assert (Hyoe : 0 <= yoe <= 399)
    by (subst yoe; clearbody doe; Z.div_mod_to_equations; lia).
  assert (Hdoy : 0 <= doy <= 365)
    by (subst doy yoe; clearbody doe; Z.div_mod_to_equations; lia).
  assert (Hfirst : 306 <= doe -> 1 <= yoe \/ 306 <= doy)
    by (subst doy yoe; clearbody doe; Z.div_mod_to_equations; lia).
  assert (Hlast : doe <= 146036 -> yoe <= 398 \/ doy <= 305)
    by (subst doy yoe; clearbody doe; Z.div_mod_to_equations; lia).
  assert (Hfrom : 72989 <= doe -> 200 <= yoe \/ (yoe = 199 /\ 306 <= doy))
    by (subst doy yoe; clearbody doe; Z.div_mod_to_equations; lia).
  assert (Hbefore : doe < 72989 -> yoe <= 198 \/ (yoe = 199 /\ doy < 306))
    by (subst doy yoe; clearbody doe; Z.div_mod_to_equations; lia).
  clearbody doy yoe doe era.
  set (mp := (5 * doy + 2) / 153).
  assert (Hmp : 0 <= mp <= 11 /\ (mp < 10 <-> doy < 306))
    by (subst mp; Z.div_mod_to_equations; lia).
  assert (Hd : 1 <= doy - (153 * mp + 2) / 5 + 1 <= 31)
    by (subst mp; Z.div_mod_to_equations; lia).
  clearbody mp.
  destruct (mp <? 10) eqn:E; [apply Z.ltb_lt in E | apply Z.ltb_ge in E].
  - assert (Hm : (mp + 3 <=? 2) = false) by (apply Z.leb_gt; lia). rewrite Hm.
    split; [lia|]. split; [exact Hd|]. subst z. lia.
  - assert (Hm : (mp - 9 <=? 2) = true) by (apply Z.leb_le; lia). rewrite Hm.
    split; [lia|]. split; [exact Hd|]. subst z. lia.
Qed.

(** The fields of the clock time depend on the minute only. *)
Lemma clock_fields_of_minute dt :
  date_of dt = (dt / 60000000) / 1440
  /\ (dt mod US_PER_DAY) / US_PER_HOUR = ((dt / 60000000) mod 1440) / 60
  /\ ((dt mod US_PER_DAY) mod US_PER_HOUR) / 60000000 = (dt / 60000000) mod 60.
Proof.
  unfold date_of, US_PER_DAY, US_PER_HOUR.
  change (24 * 3600000000) with 86400000000.
  repeat split; Z.div_mod_to_equations; lia.
Qed.

End TextFacts.

(** X11: an output line holds the old path and the new path in full, each
    moved to the right of a field of 35 characters and joined by
    [" --> "]; it is 75 characters long when both paths fit their field
    and longer otherwise: a long path is never cut. *)
Theorem output_line_is_never_cut (p q : list Z) :
  format_change p q
  = (Fmt.repeat_char " " (35 - String.length (path_text p)) ++ path_text p
       ++ " --> "
       ++ Fmt.repeat_char " " (35 - String.length (path_text q)) ++ path_text q)%string
  /\ String.length (format_change p q)
     = (Nat.max 35 (String.length (path_text p)) + 5
        + Nat.max 35 (String.length (path_text q)))%nat
  /\ (75 <= String.length (format_change p q))%nat.
Proof.
  assert (Hlen : String.length (format_change p q)
                 = (Nat.max 35 (String.length (path_text p)) + 5
                    + Nat.max 35 (String.length (path_text q)))%nat).
  { unfold format_change, path_text. rewrite !length_append, !length_rjust.
    cbn [String.length]. lia. }
  split; [|split; [exact Hlen | lia]].
  unfold format_change, Fmt.rjust, path_text. rewrite !append_assoc. reflexivity.
Qed.

(** X12: the request of [ris_get_bgp_state] goes to the [bgp-state] data
    call with [sourceapp], [resource] and [timestamp] in this order; the
    target and the timestamp are put into the URL as they are. *)
Theorem bgp_state_request_url http_get target timestamp :
  bgp_state_url target timestamp
  = ("https://stat.ripe.net/data/bgp-state/data.json?sourceapp=compare-aspaths.py&resource="
       ++ target ++ "&timestamp=" ++ timestamp)%string
  /\ ris_get_bgp_state http_get target timestamp
     = RIPEstat__response
         (http_get
            ("https://stat.ripe.net/data/bgp-state/data.json?sourceapp=compare-aspaths.py&resource="
               ++ target ++ "&timestamp=" ++ timestamp)%string).
Proof.
  assert (Hurl : bgp_state_url target timestamp
                 = ("https://stat.ripe.net/data/bgp-state/data.json?sourceapp=compare-aspaths.py&resource="
                      ++ target ++ "&timestamp=" ++ timestamp)%string).
  { unfold bgp_state_url, RIPEstat__url, RIPEstat__querystring.
    cbn [String.eqb Ascii.eqb Bool.eqb negb RIPEstat_init BASEURL sourceapp
           RIPE_STAT_BASE_URL PyStr.is_empty].
    rewrite add_params_eq. cbn [map fst snd String.concat].
    unfold script_basename. rewrite !append_assoc. reflexivity. }
  split; [exact Hurl|]. rewrite ris_get_bgp_state_eq, Hurl. reflexivity.
Qed.

(** X13: for the method [get] the query string is [sourceapp=<name>]
    followed by [&key=value] for every parameter, in the order of the
    parameters; without parameters, and for any other method, it is
    [sourceapp=<name>] alone. *)
Theorem querystring_lists_parameters_in_order self method params :
  RIPEstat__querystring self "get" (Some params)
  = ("sourceapp=" ++ sourceapp self
       ++ String.concat "" (map (fun kv => "&" ++ fst kv ++ "=" ++ snd kv) params))%string
  /\ RIPEstat__querystring self "get" None = ("sourceapp=" ++ sourceapp self)%string
  /\ (method <> "get"%string ->
      RIPEstat__querystring self method (Some params)
      = ("sourceapp=" ++ sourceapp self)%string)
  /\ (method <> "get"%string ->
      RIPEstat__querystring self method None = ("sourceapp=" ++ sourceapp self)%string).
Proof.
  split; [|split; [|split]].
  - unfold RIPEstat__querystring. cbn [String.eqb Ascii.eqb Bool.eqb negb].
    destruct params as [|kv rest].
    + cbn [map String.concat]. rewrite <- append_assoc.
      induction (("sourceapp=" ++ sourceapp self)%string) as [|c x IHx];
        cbn; [reflexivity | now rewrite <- IHx].
    + rewrite add_params_eq, append_assoc. reflexivity.
  - reflexivity.
  - intros Hmethod. unfold RIPEstat__querystring.
    apply String.eqb_neq in Hmethod. rewrite Hmethod. reflexivity.
  - intros Hmethod. unfold RIPEstat__querystring.
    apply String.eqb_neq in Hmethod. rewrite Hmethod. reflexivity.
Qed.

Lemma querystring_lists_parameters_in_order_witness :
  "post"%string <> "get"%string
  /\ RIPEstat__querystring (RIPEstat_init None) "post" (Some [("resource", "10.0.0.0/8")]%string)
     = ("sourceapp=" ++ sourceapp (RIPEstat_init None))%string.
Proof.
  split; [discriminate|].
  apply (proj1 (proj2 (proj2 (querystring_lists_parameters_in_order
                                (RIPEstat_init None) "post"
                                [("resource", "10.0.0.0/8")]%string)))).
  discriminate.
Defined.

(** X14: [ris_format_timestamp] drops seconds and microseconds: two
    moments of the same minute are formatted alike. *)
Theorem timestamp_is_cut_to_the_minute dt dt' :
  dt / 60000000 = dt' / 60000000 ->
  ris_format_timestamp dt = ris_format_timestamp dt'.
Proof.
  intros Hmin. unfold ris_format_timestamp, Fmt.strftime_Ymd_HM.
  destruct (clock_fields_of_minute dt) as (-> & -> & ->).
  destruct (clock_fields_of_minute dt') as (-> & -> & ->).
  rewrite Hmin. reflexivity.
Qed.

Lemma timestamp_is_cut_to_the_minute_witness :
  63844800000000000 / 60000000 = 63844800059999999 / 60000000
  /\ ris_format_timestamp 63844800000000000 = ris_format_timestamp 63844800059999999.
Proof.
  split; [reflexivity|].
  apply (timestamp_is_cut_to_the_minute 63844800000000000 63844800059999999).
  reflexivity.
Defined.

(** X15: for every moment of the years 1000 to 9999 the formatted
    timestamp has 16 characters, with [-] after the year and after the
    month, [T] between date and time and [:] between hours and minutes;
    for a moment of the years 1 to 999 it is shorter, the year being
    written without leading zeros. *)
Theorem timestamp_has_fixed_layout dt :
  (datetime_of_date 364877 <= dt < datetime_of_date 3652059 ->
   String.length (ris_format_timestamp dt) = 16%nat
   /\ String.get 4 (ris_format_timestamp dt) = Some "-"%char
   /\ String.get 7 (ris_format_timestamp dt) = Some "-"%char
   /\ String.get 10 (ris_format_timestamp dt) = Some "T"%char
   /\ String.get 13 (ris_format_timestamp dt) = Some ":"%char)
  /\ (0 <= dt < datetime_of_date 364877 ->
      (String.length (ris_format_timestamp dt) < 16)%nat).
Proof.
  unfold ris_format_timestamp, Fmt.strftime_Ymd_HM.
  assert (Hdays : (0 <= dt < datetime_of_date 3652059 -> 0 <= date_of dt < 3652059)
                  /\ (364877 <= date_of dt <-> datetime_of_date 364877 <= dt)).
  { unfold date_of, datetime_of_date, US_PER_DAY, US_PER_HOUR in *.
    change (24 * 3600000000) with 86400000000 in *.
    split; [intros ? | split; intros ?]; Z.div_mod_to_equations; lia. }
  destruct Hdays as [Hdays Hmillennium].
  pose proof (civil_of_days_range (date_of dt)) as Hcivil.
  destruct (Fmt.civil_of_days (date_of dt)) as [[y m] d].
  destruct Hcivil as (Hm & Hd & Hy).
  assert (Hhh : 0 <= dt mod US_PER_DAY / US_PER_HOUR < 100).
  { unfold US_PER_DAY, US_PER_HOUR. change (24 * 3600000000) with 86400000000.
    Z.div_mod_to_equations. lia. }
  assert (Hmm : 0 <= (dt mod US_PER_DAY) mod US_PER_HOUR / 60000000 < 100).
  { unfold US_PER_DAY, US_PER_HOUR. change (24 * 3600000000) with 86400000000.
    Z.div_mod_to_equations. lia. }
  pose proof (two_digits m ltac:(lia)) as Lm.
  pose proof (two_digits d ltac:(lia)) as Ld.
  pose proof (two_digits _ Hhh) as Lh.
  pose proof (two_digits _ Hmm) as Li.
  split; intros Hdt.
  - assert (Hyear : 1000 <= y <= 9999).
    { assert (Hlo : 0 <= datetime_of_date 364877)
        by (unfold datetime_of_date, US_PER_DAY, US_PER_HOUR; lia).
      specialize (Hdays ltac:(lia)). specialize (Hy Hdays).
      destruct Hy as [Hy Hiff]. split; [apply Hiff, Hmillennium|]; lia. }
    pose proof (year_four_digits y Hyear) as Ly.
    destruct (Fmt.str_int y) as [|? [|? [|? [|? [|? ?]]]]]; try discriminate Ly.
    destruct (Fmt.rjust "0" 2 (Fmt.str_int m)) as [|? [|? [|? ?]]]; try discriminate Lm.
    destruct (Fmt.rjust "0" 2 (Fmt.str_int d)) as [|? [|? [|? ?]]]; try discriminate Ld.
    destruct (Fmt.rjust "0" 2 (Fmt.str_int (dt mod US_PER_DAY / US_PER_HOUR)))
      as [|? [|? [|? ?]]]; try discriminate Lh.
    destruct (Fmt.rjust "0" 2
                (Fmt.str_int ((dt mod US_PER_DAY) mod US_PER_HOUR / 60000000)))
      as [|? [|? [|? ?]]]; try discriminate Li.
    repeat split.
  - assert (Hyear : 1 <= y <= 999).
    { assert (Hlt : datetime_of_date 364877 < datetime_of_date 3652059)
        by (unfold datetime_of_date, US_PER_DAY, US_PER_HOUR; lia).
      specialize (Hdays ltac:(lia)). specialize (Hy Hdays).
      destruct Hy as [Hy Hiff].
      assert (~ 1000 <= y) by (intros Hge; apply Hiff, Hmillennium in Hge; lia).
      lia. }
    pose proof (year_fewer_digits y Hyear) as Ly.
    rewrite !length_append, Lm, Ld, Lh, Li. cbn [String.length]. lia.
Qed.

Lemma timestamp_has_fixed_layout_witness :
  datetime_of_date 364877 <= 63844800000000000 < datetime_of_date 3652059
  /\ String.length (ris_format_timestamp 63844800000000000) = 16%nat.
Proof.
  assert (Hdt : datetime_of_date 364877 <= 63844800000000000 < datetime_of_date 3652059)
    by (unfold datetime_of_date, US_PER_DAY, US_PER_HOUR; lia).
  split; [exact Hdt|].
  apply (proj1 (timestamp_has_fixed_layout 63844800000000000) Hdt).
Defined.

(** ** Which targets are accepted *)

Section AcceptedTargets.

Import PyStr Ipaddress.

(** The parts of a split contain no separator, and joining them with the
    separator gives the string back. *)
Lemma split_inverse sep str :
  String.concat (String sep "") (split sep str) = str
  /\ Forall (fun part => contains sep part = false) (split sep str).
Proof.
  induction str as [|a str [IHjoin IHparts]]; cbn [split].
  - split; [reflexivity | repeat constructor].
  - pose proof (split_not_nil sep str) as Hnil.
    destruct (Ascii.eqb a sep) eqn:E.
    + apply Ascii.eqb_eq in E. subst a. split.
      * destruct (split sep str) as [|part parts]; [contradiction|].
        change (String sep (String.concat (String sep "") (part :: parts))
                = String sep str).
        now rewrite IHjoin.
      * now constructor.
    + destruct (split sep str) as [|part parts]; [contradiction|]. split.
      * rewrite <- IHjoin. destruct parts; reflexivity.
      * inversion IHparts; subst. constructor; [|assumption].
        cbn [contains]. rewrite E. assumption.
Qed.

Lemma split_in_two sep str a m :
  split sep str = [a; m] ->
  str = (a ++ String sep m)%string
  /\ contains sep a = false /\ contains sep m = false.
Proof.
  intros Hsplit. destruct (split_inverse sep str) as [Hjoin Hparts].
  rewrite Hsplit in Hjoin, Hparts. split.
  - rewrite <- Hjoin. reflexivity.
  - inversion Hparts as [|? ? Ha Hrest]; subst.
    inversion Hrest; subst. now split.
Qed.

Lemma split_app_length sep (a b : string) :
  List.length (split sep (a ++ String sep b)%string)
  = (List.length (split sep a) + List.length (split sep b))%nat.
Proof.
  induction a as [|x a IH]; cbn [String.append split].
  - rewrite Ascii.eqb_refl. reflexivity.
  - destruct (Ascii.eqb x sep); cbn [List.length]; [now rewrite IH|].
    pose proof (split_not_nil sep a) as Hnil.
    pose proof (split_not_nil sep (a ++ String sep b)%string) as Hnil'.
    destruct (split sep a); [contradiction|].
    destruct (split sep (a ++ String sep b)%string); [contradiction|].
    cbn [List.length] in *. exact IH.
Qed.

Lemma split_length_pos sep str : (1 <= List.length (split sep str))%nat.
Proof.
  pose proof (split_not_nil sep str). destruct (split sep str); [contradiction|].
  cbn. lia.
Qed.

(** With a slash in the target, the constructors get the two sides of
    the slash, or raise when there are more than two. *)
Lemma _split_addr_prefix_Ok w target addr mask :
  contains "/" target = true ->
  _split_addr_prefix w target = Ok (addr, mask) ->
  exists m, mask = MaskStr m /\ target = (addr ++ "/" ++ m)%string
            /\ contains "/" addr = false /\ contains "/" m = false.
Proof.
  intros Hslash. unfold _split_addr_prefix, _split_optional_netmask.
  destruct (split "/" target) as [|a [|m [|x rest]]] eqn:Hsplit;
    cbn [List.length Nat.ltb Nat.leb bind]; try discriminate.
  - exfalso. destruct (split_inverse "/"%char target) as [Hjoin Hparts].
    rewrite Hsplit in Hjoin, Hparts. cbn in Hjoin. subst a.
    inversion Hparts; subst. congruence.
  - intros [= <- <-]. exists m. split; [reflexivity|].
    now apply split_in_two.
Qed.

(** An address that passes the strict test has no bit set below the
    mask. *)
Lemma strict_check_no_host_bits w a p :
  0 <= p -> (Z.land a (_ip_int_from_prefix w p) =? a) = true ->
  ~ host_bits_set w a p.
Proof.
  intros Hp Hcheck Hbits.
  rewrite (host_bits_fail_strict_check w a p Hp Hbits) in Hcheck. discriminate.
Qed.

Lemma IPv4Network_Ok target net :
  contains "/" target = true -> IPv4Network target = Ok net ->
  exists addr mask a p,
    target = (addr ++ "/" ++ mask)%string
    /\ contains "/" addr = false /\ contains "/" mask = false
    /\ IPv4Address addr = Ok a
    /\ v4_make_netmask (MaskStr mask) = Ok (_ip_int_from_prefix 32 p, p)
    /\ 0 <= p <= 32 /\ ~ host_bits_set 32 a p /\ net = (a, p).
Proof.
  intros Hslash. unfold IPv4Network.
  destruct (_split_addr_prefix IPV4LENGTH target) as [[addr mask]|e] eqn:Hsplit;
    [|discriminate].
  destruct (_split_addr_prefix_Ok _ _ _ _ Hslash Hsplit) as (m & -> & Ht & Ha & Hm).
  cbn [bind]. destruct (IPv4Address addr) as [a|e] eqn:Haddr; [|discriminate].
  cbn [bind]. destruct (v4_make_netmask (MaskStr m)) as [[netmask p]|e] eqn:Hmask;
    [|discriminate].
  cbn [bind]. destruct (v4_make_netmask_Ok _ _ _ Hmask) as (-> & Hp & _).
  destruct (Z.land a (_ip_int_from_prefix 32 p) =? a) eqn:Hcheck;
    cbn [negb]; [|discriminate].
  intros [= <-]. exists addr, m, a, p. repeat split; try assumption; try lia.
  apply strict_check_no_host_bits; [lia | assumption].
Qed.

Lemma IPv6Network_Ok target net :
  contains "/" target = true -> IPv6Network target = Ok net ->
  exists addr mask a p,
    target = (addr ++ "/" ++ mask)%string
    /\ contains "/" addr = false /\ contains "/" mask = false
    /\ IPv6Address addr = Ok a
    /\ v6_make_netmask (MaskStr mask) = Ok (_ip_int_from_prefix 128 p, p)
    /\ 0 <= p <= 128 /\ ~ host_bits_set 128 a p /\ net = (a, p).
Proof.
  intros Hslash. unfold IPv6Network.
  destruct (_split_addr_prefix IPV6LENGTH target) as [[addr mask]|e] eqn:Hsplit;
    [|discriminate].
  destruct (_split_addr_prefix_Ok _ _ _ _ Hslash Hsplit) as (m & -> & Ht & Ha & Hm).
  cbn [bind]. destruct (IPv6Address addr) as [a|e] eqn:Haddr; [|discriminate].
  cbn [bind]. destruct (v6_make_netmask (MaskStr m)) as [[netmask p]|e] eqn:Hmask;
    [|discriminate].
  cbn [bind]. destruct (v6_make_netmask_Ok _ _ _ Hmask) as (-> & Hp & _).
  destruct (Z.land a (_ip_int_from_prefix 128 p) =? a) eqn:Hcheck;
    cbn [negb]; [|discriminate].
  intros [= <-]. exists addr, m, a, p. repeat split; try assumption; try lia.
  apply strict_check_no_host_bits; [lia | assumption].
Qed.

(** A target neither constructor accepts is not valid. *)
Lemma rejected_by_constructors target :
  (forall net, IPv4Network target <> Ok net) ->
  (forall net, IPv6Network target <> Ok net) ->
  validate_target target = Ok false.
Proof.
  intros H4 H6. unfold validate_target.
  destruct (negb _); [reflexivity|].
  destruct (contains ":" target).
  - pose proof (IPv6Network_raises_only target) as H.
    destruct (IPv6Network target) as [net|e]; [now destruct (H6 net)|].
    now rewrite (H e eq_refl).
  - pose proof (IPv4Network_raises_only target) as H.
    destruct (IPv4Network target) as [net|e]; [now destruct (H4 net)|].
    now rewrite (H e eq_refl).
Qed.

(** More than two parts around slashes make both constructors raise. *)
Lemma too_many_slashes w target :
  (3 <= List.length (split "/" target))%nat ->
  _split_addr_prefix w target = Raise AddressValueError.
Proof.
  intros Hlen. unfold _split_addr_prefix, _split_optional_netmask.
  destruct (split "/" target) as [|a [|m [|x rest]]]; cbn in Hlen; try lia.
  reflexivity.
Qed.

End AcceptedTargets.

(** X16: a target that [validate_target] accepts is an address and a mask
    around one single slash, both accepted by [ipaddress] in the family
    chosen by the colon, with a prefix length within the width of the
    family and no address bit set below the mask. *)
Theorem accepted_target_is_a_network_address (target : string) :
  validate_target target = Ok true ->
  exists addr mask a p,
    target = (addr ++ "/" ++ mask)%string
    /\ PyStr.contains "/" addr = false /\ PyStr.contains "/" mask = false
    /\ ((PyStr.contains ":" target = false
         /\ Ipaddress.IPv4Address addr = Ok a
         /\ Ipaddress.v4_make_netmask (Ipaddress.MaskStr mask)
            = Ok (Ipaddress._ip_int_from_prefix 32 p, p)
         /\ 0 <= p <= 32 /\ ~ host_bits_set 32 a p)
        \/ (PyStr.contains ":" target = true
            /\ Ipaddress.IPv6Address addr = Ok a
            /\ Ipaddress.v6_make_netmask (Ipaddress.MaskStr mask)
               = Ok (Ipaddress._ip_int_from_prefix 128 p, p)
            /\ 0 <= p <= 128 /\ ~ host_bits_set 128 a p)).
Proof.
  unfold validate_target.
  destruct (PyStr.contains "/" target) eqn:Hslash; cbn [negb]; [|discriminate].
  destruct (PyStr.contains ":" target) eqn:Hcolon.
  - destruct (Ipaddress.IPv6Network target) as [net|e] eqn:Hnet;
      [|destruct (is_ValueError e); discriminate].
    intros _.
    destruct (IPv6Network_Ok _ _ Hslash Hnet)
      as (addr & mask & a & p & Ht & Ha & Hm & Haddr & Hmask & Hp & Hbits & _).
    exists addr, mask, a, p. repeat split; try assumption. right. repeat split;
      assumption || lia.
  - destruct (Ipaddress.IPv4Network target) as [net|e] eqn:Hnet;
      [|destruct (is_ValueError e); discriminate].
    intros _.
    destruct (IPv4Network_Ok _ _ Hslash Hnet)
      as (addr & mask & a & p & Ht & Ha & Hm & Haddr & Hmask & Hp & Hbits & _).
    exists addr, mask, a, p. repeat split; try assumption. left. repeat split;
      assumption || lia.
Qed.

Lemma accepted_target_is_a_network_address_witness :
  validate_target "2001:db8::/32" = Ok true
  /\ exists addr mask a p,
       "2001:db8::/32"%string = (addr ++ "/" ++ mask)%string
       /\ PyStr.contains "/" addr = false /\ PyStr.contains "/" mask = false
       /\ ((PyStr.contains ":" "2001:db8::/32" = false
            /\ Ipaddress.IPv4Address addr = Ok a
            /\ Ipaddress.v4_make_netmask (Ipaddress.MaskStr mask)
               = Ok (Ipaddress._ip_int_from_prefix 32 p, p)
            /\ 0 <= p <= 32 /\ ~ host_bits_set 32 a p)
           \/ (PyStr.contains ":" "2001:db8::/32" = true
               /\ Ipaddress.IPv6Address addr = Ok a
               /\ Ipaddress.v6_make_netmask (Ipaddress.MaskStr mask)
                  = Ok (Ipaddress._ip_int_from_prefix 128 p, p)
               /\ 0 <= p <= 128 /\ ~ host_bits_set 128 a p)).
Proof.
  split; [vm_compute; reflexivity|].
  apply (accepted_target_is_a_network_address "2001:db8::/32").
  vm_compute; reflexivity.
Defined.

(** X17: a target with more than one slash, with nothing before the
    slash or with nothing after it is not valid, whatever the rest of it
    is. *)
Theorem malformed_slashes_are_invalid (a b c : string) :
  validate_target (a ++ "/" ++ b ++ "/" ++ c) = Ok false
  /\ validate_target ("/" ++ b) = Ok false
  /\ validate_target (a ++ "/") = Ok false.
Proof.
  split; [|split].
  - assert (Hlen : (3 <= List.length (PyStr.split "/" (a ++ "/" ++ b ++ "/" ++ c)%string))%nat).
    { change (a ++ "/" ++ b ++ "/" ++ c)%string
        with (a ++ String "/" (b ++ String "/" c))%string.
      rewrite !split_app_length.
      pose proof (split_length_pos "/"%char a).
      pose proof (split_length_pos "/"%char b).
      pose proof (split_length_pos "/"%char c). lia. }
    apply rejected_by_constructors; intros net.
    + unfold Ipaddress.IPv4Network. now rewrite (too_many_slashes _ _ Hlen).
    + unfold Ipaddress.IPv6Network. now rewrite (too_many_slashes _ _ Hlen).
  - change ("/" ++ b)%string with (String "/" b).
    apply rejected_by_constructors; intros net;
      unfold Ipaddress.IPv4Network, Ipaddress.IPv6Network,
        Ipaddress._split_addr_prefix, Ipaddress._split_optional_netmask;
      cbn [PyStr.split Ascii.eqb Bool.eqb];
      pose proof (split_not_nil "/"%char b) as Hnil;
      destruct (PyStr.split "/" b) as [|m [|x rest]]; try contradiction;
      cbn; discriminate.
  - change (a ++ "/")%string with (a ++ String "/" "")%string.
    destruct (PyStr.contains "/" a) eqn:Hslash.
    + assert (Hlen : (3 <= List.length (PyStr.split "/" (a ++ String "/" "")%string))%nat).
      { rewrite split_app_length. cbn [PyStr.split List.length].
        destruct (PyStr.split "/" a) as [|x [|y rest]] eqn:Hsplit.
        - now destruct (split_not_nil "/"%char a).
        - exfalso. destruct (split_inverse "/"%char a) as [Hjoin Hparts].
          rewrite Hsplit in Hjoin, Hparts. cbn in Hjoin. subst x.
          inversion Hparts; subst. congruence.
        - cbn [List.length]. lia. }
      apply rejected_by_constructors; intros net.
      * unfold Ipaddress.IPv4Network. now rewrite (too_many_slashes _ _ Hlen).
      * unfold Ipaddress.IPv6Network. now rewrite (too_many_slashes _ _ Hlen).
    + apply rejected_by_constructors; intros net;
        unfold Ipaddress.IPv4Network, Ipaddress.IPv6Network,
          Ipaddress._split_addr_prefix, Ipaddress._split_optional_netmask;
        rewrite (split_app_sep _ _ _ Hslash);
        cbn [PyStr.split List.length Nat.ltb Nat.leb bind].
      * destruct (Ipaddress.IPv4Address a); cbn; discriminate.
      * destruct (Ipaddress.IPv6Address a); cbn; discriminate.
Qed.

(** ** What a run does *)

(** X18: once the arguments are parsed, a run sends at most two
    requests; the help text is printed only by a run that does nothing
    else and exits with code 1; a line on standard output occurs only in
    a run that reaches [sys.exit(0)].  The exit status is 0 or 1: it is 0
    exactly when the run reaches [sys.exit(0)], and 1 when the target is
    not valid and also when an exception ends the run, which happens
    with a valid target too (a lookback count of 0). *)
Theorem run_events_and_exit_status clk http_get n target :
  (List.length (filter is_HttpGet (fst (main clk http_get n target))) <= 2)%nat
  /\ (In PrintHelpStderr (fst (main clk http_get n target)) ->
      main clk http_get n target = ([PrintHelpStderr], Exit 1))
  /\ (forall line,
        In (Print line) (fst (main clk http_get n target)) ->
        snd (main clk http_get n target) = Exit 0)
  /\ (exit_status (snd (main clk http_get n target)) = 0
      <-> snd (main clk http_get n target) = Exit 0
          /\ validate_target target = Ok true)
  /\ (exit_status (snd (main clk http_get n target)) = 1
      <-> validate_target target = Ok false
          \/ exists e, snd (main clk http_get n target) = Traceback e)
  /\ (exit_status (snd (main clk http_get n target)) = 0
      \/ exit_status (snd (main clk http_get n target)) = 1)
  /\ (validate_target target = Ok true ->
      main clk http_get 0 target = ([], Traceback IndexError)
      /\ exit_status (snd (main clk http_get 0 target)) = 1).
Proof.
  assert (Hfilter : forall lines, filter is_HttpGet (map Print lines) = []).
  { induction lines as [|l lines IH]; [reflexivity | exact IH]. }
  assert (Hnohelp : forall lines, ~ In PrintHelpStderr (map Print lines)).
  { intros lines Hin. apply in_map_iff in Hin as (l & Hl & _). discriminate. }
  assert (Hzero : validate_target target = Ok true ->
                  main clk http_get 0 target = ([], Traceback IndexError)).
  { intros Hvalid. unfold main.
    rewrite Hvalid, (proj2 (lookup_zero (today_dump clk) (now_dump clk))).
    reflexivity. }
  assert (Htraceback : forall events e,
            main clk http_get n target = (events, Traceback e) ->
            validate_target target <> Ok false ->
            (forall ev, In ev events -> is_HttpGet ev = true)
            /\ (List.length events <= 2)%nat).
  { unfold main. intros events e.
    destruct (validate_target target) as [[|]|e0].
    - destruct (ris_get_last_dump_datetime _ _ _) as [t|e1];
        [|intros [= <- _] _; split; [intros ev []|cbn; lia]].
      destruct (ris_get_bgp_state http_get target (ris_format_timestamp t)) as [x|e1];
        [|intros [= <- _] _; split; [intros ev [<-|[]]; reflexivity|cbn; lia]].
      destruct (ris_get_bgp_state http_get target _) as [y|e1];
        [|intros [= <- _] _; split; [intros ev [<-|[<-|[]]]; reflexivity|cbn; lia]].
      destruct (ris_compare_aspaths x y) as [lines|e1];
        [discriminate|
         intros [= <- _] _; split; [intros ev [<-|[<-|[]]]; reflexivity|cbn; lia]].
    - intros _ H. now destruct H.
    - intros [= <- _] _. split; [intros ev []|cbn; lia]. }
  destruct (main clk http_get n target) as [events o] eqn:Hmain. cbn [fst snd].
  unfold main in Hmain.
  destruct o as [code|e].
  - (* the run ended in [sys.exit] *)
    revert Hmain.
    destruct (validate_target target) as [[|]|e0]; [| |discriminate].
    + destruct (ris_get_last_dump_datetime _ _ _) as [t|e1]; [|discriminate].
      destruct (ris_get_bgp_state http_get target (ris_format_timestamp t)) as [x|e1];
        [|discriminate].
      destruct (ris_get_bgp_state http_get target _) as [y|e1]; [|discriminate].
      destruct (ris_compare_aspaths x y) as [lines|e1]; [|discriminate].
      intros [= <- <-]. cbn [exit_status].
      split; [cbn [app filter is_HttpGet]; rewrite Hfilter; cbn; lia|].
      split; [intros [H|[H|H]]; try discriminate; now apply Hnohelp in H|].
      split; [reflexivity|]. split; [tauto|].
      split; [split; [lia | intros [H|[e H]]; discriminate]|].
      split; [now left|]. intros _. split; [now apply Hzero|].
      rewrite Hzero by reflexivity. reflexivity.
    + intros [= <- <-]. cbn [exit_status].
      split; [cbn; lia|]. split; [reflexivity|].
      split; [intros line [H|[]]; discriminate|].
      split; [split; [lia | intros [H _]; discriminate]|].
      split; [split; [now left | reflexivity]|].
      split; [now right | discriminate].
  - (* the run ended in an exception *)
    cbn [exit_status].
    assert (Hvalid : validate_target target <> Ok false).
    { intros Hfalse. rewrite Hfalse in Hmain. discriminate. }
    destruct (Htraceback events e eq_refl Hvalid) as [Hgets Hlen].
    split.
    { pose proof (filter_length_le is_HttpGet events). lia. }
    split; [intros Hin; apply Hgets in Hin; discriminate|].
    split; [intros line Hin; apply Hgets in Hin; discriminate|].
    split; [split; [lia | intros [H _]; discriminate]|].
    split; [split; [right; now exists e | reflexivity]|].
    split; [now right|]. intros Htrue. split; [now apply Hzero|].
    rewrite Hzero by assumption. reflexivity.
Qed.

Lemma run_events_and_exit_status_witness :
  validate_target "193.0.14.0/24" = Ok true
  /\ exit_status
       (snd (main {| now_main := 739000 * US_PER_DAY + 10 * US_PER_HOUR;
                     today_dump := 739000;
                     now_dump := 739000 * US_PER_DAY + 10 * US_PER_HOUR |}
               (fun _ => {| status_code := 200;
                            json := Ok (Some {| data_bgp_state := [] |}) |})
               0 "193.0.14.0/24")) = 1.
Proof.
  assert (Hvalid : validate_target "193.0.14.0/24" = Ok true) by (vm_compute; reflexivity).
  split; [exact Hvalid|].
  apply (run_events_and_exit_status
           {| now_main := 739000 * US_PER_DAY + 10 * US_PER_HOUR;
              today_dump := 739000;
              now_dump := 739000 * US_PER_DAY + 10 * US_PER_HOUR |}
           (fun _ => {| status_code := 200;
                        json := Ok (Some {| data_bgp_state := [] |}) |})
           0 "193.0.14.0/24").
  exact Hvalid.
Defined.
